(** * The security plugin of x-pack (x-pack/plugins/security/index.js)

    A shallow embedding of the plugin definition: its configuration schema,
    its deprecations, the [replaceInjectedVars] hook, the two saved-objects
    client factories registered by [init], the exposure of the authorization
    service and the [onPostAuth] request interceptor.

    The plugin talks to collaborators that live in other files (the
    authorization service, the capability disabler, the saved-objects
    service, the elasticsearch cluster).  Every call into one of them is an
    entry of type [Call]; a run threads the state of those collaborators and
    records the calls in order, so that statements of the form "the checker
    is never consulted" are statements about the recorded trace. *)

From Stdlib Require Import ZArith Ascii String List Lia.
From stdpp Require Import base option list gmap strings fin_maps.

Local Open Scope string_scope.

(** ** JavaScript strings

    The source only uses [startsWith] with a literal prefix and [split] with
    a one-character literal separator and a limit; the prefixes and the
    separators are ASCII. *)
Module JsString.

(** [s.startsWith(p)] *)
Fixpoint startsWith (s p : string) {struct p} : bool :=
  match p, s with
  | EmptyString, _ => true
  | String _ _, EmptyString => false
  | String b p', String a s' => if Ascii.eqb a b then startsWith s' p' else false
  end.

(** [s.split(sep)] for a one-character separator, without a limit: the
    pieces between the occurrences of [sep]; never empty. *)
Fixpoint split_all (sep : ascii) (s : string) : list string :=
  match s with
  | EmptyString => [EmptyString]
  | String c s' =>
      if Ascii.eqb c sep then EmptyString :: split_all sep s'
      else match split_all sep s' with
           | piece :: pieces => String c piece :: pieces
           | [] => [String c EmptyString]
           end
  end.

(** [s.split(sep, limit)]: the array of pieces cut down to its first
    [limit] entries (the rest of the string is dropped, not kept in the
    last entry). *)
Definition split (s : string) (sep : ascii) (limit : nat) : list string :=
  take limit (split_all sep s).

(** The text of [s] up to its first [sep] (all of [s] when there is none). *)
Fixpoint upto (sep : ascii) (s : string) : string :=
  match s with
  | EmptyString => EmptyString
  | String c s' => if Ascii.eqb c sep then EmptyString else String c (upto sep s')
  end.

(** [s] without its first [n] characters. *)
Fixpoint drop (n : nat) (s : string) : string :=
  match n, s with
  | O, _ => s
  | S _, EmptyString => EmptyString
  | S n', String _ s' => drop n' s'
  end.

(** What is left of [s] after its first [sep], if it has one. *)
Fixpoint after (sep : ascii) (s : string) : option string :=
  match s with
  | EmptyString => None
  | String c s' => if Ascii.eqb c sep then Some s' else after sep s'
  end.

Fixpoint contains (sep : ascii) (s : string) : bool :=
  match s with
  | EmptyString => false
  | String c s' => if Ascii.eqb c sep then true else contains sep s'
  end.

End JsString.

(** ** JavaScript values and objects

    Objects that the plugin receives and returns by reference (the injected
    vars) live in a heap, so that "the same object" and "a new object" are
    different things.  The UI capabilities are the nested map of the data
    model: feature id to capability id to flag. *)
Definition loc := positive.

Inductive JsVal : Type :=
| VUndefined
| VNull
| VBool (b : bool)
| VNum (n : Z)
| VStr (s : string)
| VCaps (m : gmap string (gmap string bool))
| VRef (l : loc).

(** [v === false] *)
Definition strict_eq_false (v : JsVal) : bool :=
  match v with
  | VBool false => true
  | _ => false
  end.

(** [array[i]] on an array of strings: [None] is [undefined]. *)
Definition index (a : list string) (i : nat) : option string := a !! i.

(** A string or [undefined] inside a template literal. *)
Definition template (v : option string) : string :=
  match v with
  | Some s => s
  | None => "undefined"
  end.

(** ** Requests *)
Record RouteSettings := { auth : JsVal; tags : option (list string) }.
Record Route := { settings : RouteSettings }.
Record Request := { path : string; route : Route }.

(** ** Collaborators

    Actions are built by the action registry of the authorization service,
    which is another file: an action is kept as the call that builds it. *)
Inductive Action : Type :=
| actions_app_get (appId : option string)
| actions_api_get (operation : string).

(** [checkPrivileges] is called with one action for an application and with
    an array of actions for an API route. *)
Inductive Required : Type :=
| One (action : Action)
| Many (actions : list Action).

Record CheckPrivilegesResponse := { hasAllRequested : bool; missing : list Action }.

(** Handles of the values other files hand out. *)
Inductive Checker : Type := checker (id : nat).
Inductive Disabler : Type := disabler (id : nat).
Inductive Cluster : Type := cluster (id : nat).
Inductive Repository : Type := repository (id : nat).
Inductive Client : Type := client_handle (id : nat).

(** The function a saved-objects repository calls the cluster with:
    [callWithInternalUser], or
    [(...args) => callWithRequest(request, ...args)]. *)
Inductive CallCluster : Type :=
| callWithInternalUser (adminCluster : Cluster)
| callWithRequest (adminCluster : Cluster) (request : Request).

(** [Boom.notFound(message)]; the interceptor calls it without a message. *)
Inductive Boom : Type := Boom_notFound (message : option string).

(** What a hapi extension point returns: [h.continue], or a response that
    ends the request. *)
Inductive PostAuth : Type :=
| h_continue
| takeover (response : Boom).

(** The authorization service, as other files hand it out: what
    [createAuthorizationService] returns and what [deepFreeze] returns. *)
Inductive Service : Type := service (id : nat).

(** The results of the license check the login view is built from; [None]
    is a falsy answer. *)
Record LicenseCheckResults :=
  { showLogin : JsVal; loginMessage : JsVal; allowLogin : JsVal; layout : JsVal }.

(** ** Calls into other files *)
Inductive Call : Type :=
| UseRbac                                             (* authorization.mode.useRbac() *)
| CheckPrivilegesDynamicallyWithRequest (req : Request)
| CheckPrivileges (c : Checker) (required : Required) (* await checkPrivileges(...) *)
| DisableUICapabilitesFactory (request : Request)
| DisableAll (d : Disabler) (uiCapabilities : JsVal)
| DisableUsingPrivileges (d : Disabler) (uiCapabilities : JsVal)
| GetCluster (name : string)
| GetSavedObjectsRepository (callCluster : CallCluster)
| NewSavedObjectsClient (repo : Repository)
| NewSecureSavedObjectsClientWrapper (baseClient : Client) (request : Request)
| ConfigGet (key : string)
| CreateAuthorizationService
| DeepFreeze (authorization : Service)   (* deepFreeze(authorization), server/lib/deep_freeze *)
| Expose (key : string) (value : Service)
| RegisterPrivilegesWithCluster
| GetLicenseCheckResults                 (* xpackInfo.feature(plugin.id).getLicenseCheckResults() *)
| Glue (name : string).

(** The type of what each call returns. *)
Definition answer (c : Call) : Type :=
  match c with
  | UseRbac => bool
  | CheckPrivilegesDynamicallyWithRequest _ => Checker
  | CheckPrivileges _ _ => CheckPrivilegesResponse
  | DisableUICapabilitesFactory _ => Disabler
  | DisableAll _ _ => JsVal
  | DisableUsingPrivileges _ _ => JsVal
  | GetCluster _ => Cluster
  | GetSavedObjectsRepository _ => Repository
  | NewSavedObjectsClient _ => Client
  | NewSecureSavedObjectsClientWrapper _ _ => Client
  | ConfigGet _ => JsVal
  | CreateAuthorizationService => Service
  | DeepFreeze _ => Service
  | Expose _ _ => unit
  | RegisterPrivilegesWithCluster => unit
  | GetLicenseCheckResults => option LicenseCheckResults
  | Glue _ => unit
  end.

Definition is_UseRbac (c : Call) : bool :=
  match c with UseRbac => true | _ => false end.

Definition is_CheckPrivileges (c : Call) : bool :=
  match c with CheckPrivileges _ _ => true | _ => false end.

Definition is_CheckPrivilegesDynamicallyWithRequest (c : Call) : bool :=
  match c with CheckPrivilegesDynamicallyWithRequest _ => true | _ => false end.

Definition is_NewSecureSavedObjectsClientWrapper (c : Call) : bool :=
  match c with NewSecureSavedObjectsClientWrapper _ _ => true | _ => false end.

Definition is_GetSavedObjectsRepository (c : Call) : bool :=
  match c with GetSavedObjectsRepository _ => true | _ => false end.

Definition is_DisableUsingPrivileges (c : Call) : bool :=
  match c with DisableUsingPrivileges _ _ => true | _ => false end.

Definition is_ConfigGet (key : string) (c : Call) : bool :=
  match c with ConfigGet k => String.eqb k key | _ => false end.

(** How often a kind of call occurs in a trace. *)
Definition count (p : Call -> bool) (t : list Call) : nat :=
  length (List.filter p t).

(** ** Runs

    The state of a run: the state [W] of the collaborators (the mode among
    it, which the license feed may change at any call) and the heap. *)
Record World (W : Type) := mkWorld { ext : W; heap : gmap loc (gmap string JsVal) }.
Arguments mkWorld {W} _ _.
Arguments ext {W} _.
Arguments heap {W} _.

(** What the collaborators answer to a call, and what they do to the
    state. *)
Definition Handler (W : Type) : Type := forall c : Call, World W -> answer c * World W.

Section Plugin.

Variable W : Type.
Variable handler : Handler W.

(** A computation returns its result, the state it leaves and the calls it
    made, in order. *)
Definition M (R : Type) : Type := World W -> R * World W * list Call.

Definition result {R} (r : R * World W * list Call) : R := fst (fst r).
Definition final {R} (r : R * World W * list Call) : World W := snd (fst r).
Definition trace {R} (r : R * World W * list Call) : list Call := snd r.

Definition ret {R} (x : R) : M R := fun w => (x, w, []).

Definition bind {R S} (m : M R) (k : R -> M S) : M S :=
  fun w =>
    let r1 := m w in
    let r2 := k (result r1) (final r1) in
    (result r2, final r2, (trace r1 ++ trace r2)%list).

Definition call (c : Call) : M (answer c) :=
  fun w => (fst (handler c w), snd (handler c w), [c]).

End Plugin.

Arguments ret {W R} _ _.
Arguments bind {W R S} _ _ _.
Arguments call {W} _ _ _.
Arguments result {W R} _.
Arguments final {W R} _.
Arguments trace {W R} _.

Declare Scope js_scope.
Delimit Scope js_scope with js.
Notation "x <- m ;; k" := (bind m (fun x => k))
  (at level 100, m at next level, right associativity) : js_scope.
Notation "m ;;; k" := (bind m (fun _ => k))
  (at level 100, right associativity) : js_scope.

(** ** Object operations of the language *)
Section Objects.

Variable W : Type.

(** [o.key]: [undefined] when the property is missing. *)
Definition get_prop (o : loc) (key : string) : M W JsVal :=
  fun w => (default VUndefined (default ∅ (heap w !! o) !! key), w, []).

(** [{ ...o }]: a new object with a copy of the own properties of [o]. *)
Definition spread (o : loc) : M W loc :=
  fun w =>
    let l := fresh (dom (heap w)) in
    (l, mkWorld (ext w) (<[l := default ∅ (heap w !! o)]> (heap w)), []).

(** Defining the property [key] of the object [o]. *)
Definition set_prop (o : loc) (key : string) (v : JsVal) : M W unit :=
  fun w => (tt, mkWorld (ext w) (alter (fun obj => <[key := v]> obj) o (heap w)), []).

End Objects.

Arguments get_prop {W} _ _ _.
Arguments spread {W} _ _.
Arguments set_prop {W} _ _ _ _.

(** ** The plugin *)
Section Security.

Variable W : Type.
Variable handler : Handler W.

Local Open Scope js_scope.
Local Abbreviation call := (call handler).

(** [uiExports.injectDefaultVars] *)
Definition injectDefaultVars : M W (gmap string JsVal) :=
  secureCookies <- call (ConfigGet "xpack.security.secureCookies");;
  sessionTimeout <- call (ConfigGet "xpack.security.sessionTimeout");;
  enableSpaceAwarePrivileges <- call (ConfigGet "xpack.spaces.enabled");;
  ret (<["secureCookies" := secureCookies]>
       (<["sessionTimeout" := sessionTimeout]>
        (<["enableSpaceAwarePrivileges" := enableSpaceAwarePrivileges]> ∅))).

(** [uiExports.replaceInjectedVars].  In an object literal the spread is
    evaluated first, then the value of [uiCapabilities], which is then
    defined on the new object. *)
Definition replaceInjectedVars (originalInjectedVars : loc) (request : Request)
  : M W loc :=
  rbac <- call UseRbac;;
  if negb rbac then ret originalInjectedVars
  else
    disableUICapabilites <- call (DisableUICapabilitesFactory request);;
    if strict_eq_false (auth (settings (route request))) then
      vars <- spread originalInjectedVars;;
      uiCapabilities <- get_prop originalInjectedVars "uiCapabilities";;
      disabled <- call (DisableAll disableUICapabilites uiCapabilities);;
      set_prop vars "uiCapabilities" disabled;;;
      ret vars
    else
      vars <- spread originalInjectedVars;;
      uiCapabilities <- get_prop originalInjectedVars "uiCapabilities";;
      disabled <- call (DisableUsingPrivileges disableUICapabilites uiCapabilities);;
      set_prop vars "uiCapabilities" disabled;;;
      ret vars.

(** [init]: a sequence of calls into other files.  The one value it hands
    on itself is the authorization service: it exposes what [deepFreeze]
    returns for it.  What [deepFreeze] does to the object is the business of
    its own file, which is not part of the sources.  The functions [init]
    registers are the definitions that follow. *)
Definition init : M W unit :=
  call (Glue "xpackInfoFeature.registerLicenseCheckResultsGenerator");;;
  call (Glue "validateConfig");;;
  call (Glue "server.auth.scheme");;;
  call (Glue "server.auth.strategy");;;
  call (Glue "server.auth.default");;;
  call (Glue "createOptionalPlugin");;;
  authorization <- call CreateAuthorizationService;;
  frozen <- call (DeepFreeze authorization);;
  call (Expose "authorization" frozen);;;
  call (Glue "watchStatusAndLicenseToInitialize");;;
  call (Glue "new AuditLogger");;;
  call (Glue "new SecurityAuditLogger");;;
  call (Glue "savedObjects.setScopedSavedObjectsClientFactory");;;
  call (Glue "savedObjects.addScopedSavedObjectsClientWrapperFactory");;;
  call (Glue "getUserProvider");;;
  call (Glue "initAuthenticator");;;
  call (Glue "initAuthenticateApi");;;
  call (Glue "initUsersApi");;;
  call (Glue "initPublicRolesApi");;;
  call (Glue "initIndicesApi");;;
  call (Glue "initPrivilegesApi");;;
  call (Glue "initLoginView");;;
  call (Glue "initLogoutView");;;
  call (Glue "initLoggedOutView");;;
  call (Glue "server.injectUiAppVars");;;
  call (Glue "server.ext").

(** The callback given to [watchStatusAndLicenseToInitialize]. *)
Definition onLicense (allowRbac : bool) : M W unit :=
  if allowRbac then call RegisterPrivilegesWithCluster else ret tt.

(** The function given to [server.injectUiAppVars('login', ...)]: the
    login state, with the layout ['form'] when the license check names
    none. *)
Definition loginVars : M W LicenseCheckResults :=
  results <- call GetLicenseCheckResults;;
  let checked :=
    default {| showLogin := VUndefined; loginMessage := VUndefined;
               allowLogin := VUndefined; layout := VUndefined |} results in
  ret {| showLogin := showLogin checked;
         loginMessage := loginMessage checked;
         allowLogin := allowLogin checked;
         layout := match layout checked with
                   | VUndefined => VStr "form"
                   | v => v
                   end |}.

(** The factory given to [savedObjects.setScopedSavedObjectsClientFactory]. *)
Definition scopedSavedObjectsClientFactory (request : Request) : M W Client :=
  adminCluster <- call (GetCluster "admin");;
  let callCluster := callWithRequest adminCluster request in
  rbac <- call UseRbac;;
  if rbac then
    internalRepository <-
      call (GetSavedObjectsRepository (callWithInternalUser adminCluster));;
    call (NewSavedObjectsClient internalRepository)
  else
    callWithRequestRepository <- call (GetSavedObjectsRepository callCluster);;
    call (NewSavedObjectsClient callWithRequestRepository).

(** The factory given to
    [savedObjects.addScopedSavedObjectsClientWrapperFactory]. *)
Definition scopedSavedObjectsClientWrapperFactory (client : Client) (request : Request)
  : M W Client :=
  rbac <- call UseRbac;;
  if rbac then call (NewSecureSavedObjectsClientWrapper client request)
  else ret client.

(** The actions an API route requires, one per access tag. *)
Definition apiActions (path : string) (actionTags : list string) : list Action :=
  let feature := index (JsString.split path "/" 3) 2 in
  List.map
    (fun tag =>
       actions_api_get
         (template feature +:+ "/" +:+ template (index (JsString.split tag ":" 2) 1)))
    actionTags.

Definition actionTags (req : Request) : list string :=
  List.filter (fun tag => JsString.startsWith tag "access:")
              (default [] (tags (settings (route req)))).

(** The second half of the interceptor: API restrictions. *)
Definition enforceApi (req : Request) (checkPrivileges : Checker) : M W PostAuth :=
  if JsString.startsWith (path req) "/api/" then
    if Nat.ltb 0 (List.length (actionTags req)) then
      checkPrivilegesResponse <-
        call (CheckPrivileges checkPrivileges (Many (apiActions (path req) (actionTags req))));;
      if negb (hasAllRequested checkPrivilegesResponse)
      then ret (takeover (Boom_notFound None))
      else ret h_continue
    else ret h_continue
  else ret h_continue.

(** The interceptor registered with [server.ext('onPostAuth', ...)]. *)
Definition onPostAuth (req : Request) : M W PostAuth :=
  rbac <- call UseRbac;;
  if negb rbac then ret h_continue
  else
    checkPrivileges <- call (CheckPrivilegesDynamicallyWithRequest req);;
    if JsString.startsWith (path req) "/app/" then
      let appId := index (JsString.split (path req) "/" 3) 2 in
      let appAction := actions_app_get appId in
      checkPrivilegesResponse <- call (CheckPrivileges checkPrivileges (One appAction));;
      if negb (hasAllRequested checkPrivilegesResponse)
      then ret (takeover (Boom_notFound None))
      else enforceApi req checkPrivileges
    else enforceApi req checkPrivileges.

End Security.

Arguments injectDefaultVars {W} _ _.
Arguments replaceInjectedVars {W} _ _ _ _.
Arguments init {W} _ _.
Arguments onLicense {W} _ _ _.
Arguments loginVars {W} _ _.
Arguments scopedSavedObjectsClientFactory {W} _ _ _.
Arguments scopedSavedObjectsClientWrapperFactory {W} _ _ _ _.
Arguments enforceApi {W} _ _ _ _.
Arguments onPostAuth {W} _ _ _.

(** ** The configuration schema and the deprecations *)
Module Joi.

(** A default value of a setting. *)
Inductive Value : Type :=
| null
| bool_ (b : bool)
| string_ (s : string)
| strings (l : list string).

(** The part of Joi the schema uses.  [default_] is [None] where the
    schema has no [.default(...)]; for an object, [with_default] says
    whether [.default()] was called on it. *)
Inductive Schema : Type :=
| array_of_strings (default_ : option Value)
| boolean (default_ : option Value)
| string (valid : option (list String.string)) (hostname : bool) (default_ : option Value)
| number (integer : bool) (min max : option Z) (allow_null : bool) (default_ : option Value)
| object (keys : Keys) (with_default : bool)
with Keys : Type :=
| no_keys
| key (name : String.string) (schema : Schema) (rest : Keys).

(** The defaults of a schema, by dotted setting name.  [.default()] on an
    object builds its default from the defaults of its keys; an object
    without it has none. *)
Fixpoint defaults (prefix : String.string) (s : Schema) : list (String.string * Value) :=
  match s with
  | array_of_strings d | boolean d | string _ _ d | number _ _ _ _ d =>
      match d with
      | Some v => [(prefix, v)]
      | None => []
      end
  | object keys with_default =>
      if with_default then defaults_keys prefix keys else []
  end
with defaults_keys (prefix : String.string) (ks : Keys) : list (String.string * Value) :=
  match ks with
  | no_keys => []
  | key name schema rest =>
      (defaults (prefix +:+ "." +:+ name) schema ++ defaults_keys prefix rest)%list
  end.

Fixpoint lookup (k : String.string) (l : list (String.string * Value)) : option Value :=
  match l with
  | [] => None
  | (k', v) :: l' => if String.eqb k' k then Some v else lookup k l'
  end.

End Joi.

Definition configPrefix : string := "xpack.security".

(** [config(Joi)] *)
Definition config : Joi.Schema :=
  Joi.object
    (Joi.key "authProviders" (Joi.array_of_strings (Some (Joi.strings ["basic"])))
    (Joi.key "enabled" (Joi.boolean (Some (Joi.bool_ true)))
    (Joi.key "cookieName" (Joi.string None false (Some (Joi.string_ "sid")))
    (Joi.key "encryptionKey" (Joi.string None false None)
    (Joi.key "sessionTimeout" (Joi.number false None None true (Some Joi.null))
    (Joi.key "secureCookies" (Joi.boolean (Some (Joi.bool_ false)))
    (Joi.key "public"
       (Joi.object
          (Joi.key "protocol" (Joi.string (Some ["http"; "https"]) false None)
          (Joi.key "hostname" (Joi.string None true None)
          (Joi.key "port" (Joi.number true (Some 0%Z) (Some 65535%Z) false None)
           Joi.no_keys)))
          true)
    (Joi.key "authorization"
       (Joi.object
          (Joi.key "legacyFallback"
             (Joi.object
                (Joi.key "enabled" (Joi.boolean (Some (Joi.bool_ true))) (* deprecated *)
                 Joi.no_keys)
                true)
           Joi.no_keys)
          true)
    (Joi.key "audit"
       (Joi.object
          (Joi.key "enabled" (Joi.boolean (Some (Joi.bool_ false)))
           Joi.no_keys)
          true)
     Joi.no_keys)))))))))
    true.

(** The helpers the deprecation framework passes to [deprecations]. *)
Inductive Deprecation : Type :=
| unused (key : string)
| rename (oldKey newKey : string).

(** [deprecations({ unused })]; the keys are relative to [configPrefix]. *)
Definition deprecations : list Deprecation :=
  [unused "authorization.legacyFallback.enabled"].

Definition legacyFallback_enabled : string :=
  "xpack.security.authorization.legacyFallback.enabled".

(** ** Everything the plugin runs

    The functions of the file, each with its arguments. *)
Inductive Entry : Type :=
| run_injectDefaultVars
| run_replaceInjectedVars (originalInjectedVars : loc) (request : Request)
| run_init
| run_onLicense (allowRbac : bool)
| run_loginVars
| run_scopedSavedObjectsClientFactory (request : Request)
| run_scopedSavedObjectsClientWrapperFactory (client : Client) (request : Request)
| run_onPostAuth (req : Request).

(** The calls an entry makes from a state. *)
Definition calls {W} (handler : Handler W) (e : Entry) (w : World W) : list Call :=
  match e with
  | run_injectDefaultVars => trace (injectDefaultVars handler w)
  | run_replaceInjectedVars o request => trace (replaceInjectedVars handler o request w)
  | run_init => trace (init handler w)
  | run_onLicense allowRbac => trace (onLicense handler allowRbac w)
  | run_loginVars => trace (loginVars handler w)
  | run_scopedSavedObjectsClientFactory request =>
      trace (scopedSavedObjectsClientFactory handler request w)
  | run_scopedSavedObjectsClientWrapperFactory client request =>
      trace (scopedSavedObjectsClientWrapperFactory handler client request w)
  | run_onPostAuth req => trace (onPostAuth handler req w)
  end.

(** ** The capability disabler

    Modelled from the spec: [disableUICapabilitesFactory]
    ([server/lib/authorization]) is not part of the sources.  Its "disable
    all" path returns a new map of the same shape with every capability flag
    [false]. *)
Definition disable_all (m : gmap string (gmap string bool)) : gmap string (gmap string bool) :=
  (fun capabilities : gmap string bool => (fun _ : bool => false) <$> capabilities) <$> m.

(** A disabler whose [all] is the one above. *)
Definition all_disables_all {W} (handler : Handler W) : Prop :=
  forall d m w, fst (handler (DisableAll d (VCaps m)) w) = VCaps (disable_all m).

(** Collaborators that leave the objects they are not given alone: they may
    allocate, but every object of the heap stays as it is. *)
Definition preserves_objects {W} (handler : Handler W) : Prop :=
  forall c w l obj,
    heap w !! l = Some obj -> heap (snd (handler c w)) !! l = Some obj.

(** ** A concrete environment

    The mode is a flag that every privilege check flips (a license change
    while the check is in flight); the checker grants a fixed list of
    actions. *)
Record Sample := { rbac : bool; granted : list Action; flips : bool }.

Definition Action_eqb (a b : Action) : bool :=
  match a, b with
  | actions_app_get (Some x), actions_app_get (Some y) => String.eqb x y
  | actions_app_get None, actions_app_get None => true
  | actions_api_get x, actions_api_get y => String.eqb x y
  | _, _ => false
  end.

Definition grants (s : Sample) (a : Action) : bool :=
  existsb (Action_eqb a) (granted s).

Definition required_actions (r : Required) : list Action :=
  match r with
  | One a => [a]
  | Many l => l
  end.

Definition sample_check (s : Sample) (r : Required) : CheckPrivilegesResponse :=
  {| hasAllRequested := forallb (grants s) (required_actions r);
     missing := List.filter (fun a => negb (grants s a)) (required_actions r) |}.

Definition sample_handler : Handler Sample :=
  fun c =>
    match c return World Sample -> answer c * World Sample with
    | UseRbac => fun w => (rbac (ext w), w)
    | CheckPrivilegesDynamicallyWithRequest _ => fun w => (checker 0, w)
    | CheckPrivileges _ r =>
        fun w =>
          (sample_check (ext w) r,
           mkWorld {| rbac := xorb (rbac (ext w)) (flips (ext w));
                      granted := granted (ext w);
                      flips := flips (ext w) |}
                   (heap w))
    | DisableUICapabilitesFactory _ => fun w => (disabler 0, w)
    | DisableAll _ v =>
        fun w => (match v with VCaps m => VCaps (disable_all m) | _ => v end, w)
    | DisableUsingPrivileges _ v => fun w => (v, w)
    | GetCluster _ => fun w => (cluster 0, w)
    | GetSavedObjectsRepository cc =>
        fun w => (match cc with
                  | callWithInternalUser _ => repository 0
                  | callWithRequest _ _ => repository 1
                  end, w)
    | NewSavedObjectsClient (repository n) => fun w => (client_handle n, w)
    | NewSecureSavedObjectsClientWrapper (client_handle n) _ =>
        fun w => (client_handle (100 + n), w)
    | ConfigGet _ => fun w => (VUndefined, w)
    | CreateAuthorizationService => fun w => (service 0, w)
    | DeepFreeze authorization => fun w => (authorization, w)
    | Expose _ _ => fun w => (tt, w)
    | RegisterPrivilegesWithCluster => fun w => (tt, w)
    | GetLicenseCheckResults => fun w => (None, w)
    | Glue _ => fun w => (tt, w)
    end.

Definition sample_world (rbac : bool) (granted : list Action) (flips : bool)
  (h : gmap loc (gmap string JsVal)) : World Sample :=
  mkWorld {| rbac := rbac; granted := granted; flips := flips |} h.

Definition request (path : string) (auth : JsVal) (tags : option (list string)) : Request :=
  {| path := path; route := {| settings := {| auth := auth; tags := tags |} |} |}.

Definition sample_capabilities : gmap string (gmap string bool) :=
  <["discover" := <["show" := true]> (<["save" := false]> ∅)]>
    (<["dashboard" := <["createNew" := true]> ∅]> ∅).

Definition sample_vars : gmap string JsVal :=
  <["uiCapabilities" := VCaps sample_capabilities]> (<["secureCookies" := VBool false]> ∅).

Definition sample_heap : gmap loc (gmap string JsVal) := <[1%positive := sample_vars]> ∅.

(** ** One observed mode

    The collaborators with the mode pinned to [mode]: every
    [mode.useRbac()] answers [mode], whatever the state has become. *)
Definition pinned {W} (handler : Handler W) (mode : bool) : Handler W :=
  fun c =>
    match c return World W -> answer c * World W with
    | UseRbac => fun w => (mode, snd (handler UseRbac w))
    | c' => handler c'
    end.

(** The application or feature a path under [/app/] or [/api/] names: the
    text after these five characters up to the next slash. *)
Definition third_segment (path : string) : string :=
  JsString.upto "/" (JsString.drop 5 path).

(** The operation a tag names, read as all the text after [access:]. *)
Definition text_after_access (tag : string) : string := JsString.drop 7 tag.

(** The operation the interceptor takes from a tag: the text after
    [access:] up to the next colon. *)
Definition operation_of (tag : string) : string :=
  JsString.upto ":" (JsString.drop 7 tag).

(** What the checker answers when the interceptor asks it for the app action
    of [req], in a run from [w]. *)
Definition app_check {W} (handler : Handler W) (req : Request) (w : World W)
  : CheckPrivilegesResponse :=
  let w1 := snd (handler UseRbac w) in
  let checkPrivileges := fst (handler (CheckPrivilegesDynamicallyWithRequest req) w1) in
  let w2 := snd (handler (CheckPrivilegesDynamicallyWithRequest req) w1) in
  fst (handler
         (CheckPrivileges checkPrivileges
            (One (actions_app_get (Some (third_segment (path req)))))) w2).

(** The values a trace exposes on the server, with their names. *)
Fixpoint exposed (t : list Call) : list (string * Service) :=
  match t with
  | [] => []
  | Expose key value :: t' => (key, value) :: exposed t'
  | _ :: t' => exposed t'
  end.

Definition is_CreateAuthorizationService (c : Call) : bool :=
  match c with CreateAuthorizationService => true | _ => false end.

Definition is_DeepFreeze (c : Call) : bool :=
  match c with DeepFreeze _ => true | _ => false end.

(** The state that a sequence of calls leaves. *)
Definition state_after {W} (handler : Handler W) (cs : list Call) (w : World W) : World W :=
  fold_left (fun w' c => snd (handler c w')) cs w.

(** The calls of [init] that come before it creates the authorization
    service, and those that come after it has exposed it. *)
Definition before_exposure : list Call :=
  [Glue "xpackInfoFeature.registerLicenseCheckResultsGenerator";
   Glue "validateConfig";
   Glue "server.auth.scheme";
   Glue "server.auth.strategy";
   Glue "server.auth.default";
   Glue "createOptionalPlugin"].

Definition after_exposure : list Call :=
  [Glue "watchStatusAndLicenseToInitialize";
   Glue "new AuditLogger";
   Glue "new SecurityAuditLogger";
   Glue "savedObjects.setScopedSavedObjectsClientFactory";
   Glue "savedObjects.addScopedSavedObjectsClientWrapperFactory";
   Glue "getUserProvider";
   Glue "initAuthenticator";
   Glue "initAuthenticateApi";
   Glue "initUsersApi";
   Glue "initPublicRolesApi";
   Glue "initIndicesApi";
   Glue "initPrivilegesApi";
   Glue "initLoginView";
   Glue "initLogoutView";
   Glue "initLoggedOutView";
   Glue "server.injectUiAppVars";
   Glue "server.ext"].

(** In a run of [init] from [w]: the service that
    [createAuthorizationService] returns, and what [deepFreeze] returns
    for it. *)
Definition created {W} (handler : Handler W) (w : World W) : Service :=
  fst (handler CreateAuthorizationService (state_after handler before_exposure w)).

Definition frozen {W} (handler : Handler W) (w : World W) : Service :=
  fst (handler (DeepFreeze (created handler w))
         (snd (handler CreateAuthorizationService
                 (state_after handler before_exposure w)))).

(** ** Which requests the interceptor checks

    A request is checked when its path is under [/app/], or under [/api/]
    with a route that carries a tag starting with [access:]. *)
Definition protected (req : Request) : bool :=
  JsString.startsWith (path req) "/app/"
  || (JsString.startsWith (path req) "/api/" && Nat.ltb 0 (List.length (actionTags req))).

(** What the interceptor asks the checker for when it checks [req]: the one
    app action for a path under [/app/], the array of the API actions of the
    access tags otherwise. *)
Definition required_of (req : Request) : Required :=
  if JsString.startsWith (path req) "/app/"
  then One (actions_app_get (Some (third_segment (path req))))
  else Many (List.map
               (fun tag =>
                  actions_api_get (third_segment (path req) +:+ "/" +:+ operation_of tag))
               (actionTags req)).

Definition is_DisableAll (c : Call) : bool :=
  match c with DisableAll _ _ => true | _ => false end.

Definition is_DisableUICapabilitesFactory (c : Call) : bool :=
  match c with DisableUICapabilitesFactory _ => true | _ => false end.

Definition is_RegisterPrivilegesWithCluster (c : Call) : bool :=
  match c with RegisterPrivilegesWithCluster => true | _ => false end.

(** A repository built over [callWithInternalUser]. *)
Definition is_internal_repository (c : Call) : bool :=
  match c with
  | GetSavedObjectsRepository (callWithInternalUser _) => true
  | _ => false
  end.

(** ** Two more concrete environments

    Collaborators given by how they answer the mode read and the privilege
    check; every other call is answered with a fixed handle and leaves the
    state alone. *)
Definition stub_handler {W} (mode : World W -> bool * World W)
  (check : Required -> World W -> CheckPrivilegesResponse * World W) : Handler W :=
  fun c =>
    match c return World W -> answer c * World W with
    | UseRbac => mode
    | CheckPrivilegesDynamicallyWithRequest _ => fun w => (checker 0, w)
    | CheckPrivileges _ r => check r
    | DisableUICapabilitesFactory _ => fun w => (disabler 0, w)
    | DisableAll _ v =>
        fun w => (match v with VCaps m => VCaps (disable_all m) | _ => v end, w)
    | DisableUsingPrivileges _ v => fun w => (v, w)
    | GetCluster _ => fun w => (cluster 0, w)
    | GetSavedObjectsRepository _ => fun w => (repository 0, w)
    | NewSavedObjectsClient _ => fun w => (client_handle 0, w)
    | NewSecureSavedObjectsClientWrapper _ _ => fun w => (client_handle 1, w)
    | ConfigGet _ => fun w => (VUndefined, w)
    | CreateAuthorizationService => fun w => (service 0, w)
    | DeepFreeze authorization => fun w => (authorization, w)
    | Expose _ _ => fun w => (tt, w)
    | RegisterPrivilegesWithCluster => fun w => (tt, w)
    | GetLicenseCheckResults => fun w => (None, w)
    | Glue _ => fun w => (tt, w)
    end.

(** A fixed mode and a checker with a fixed verdict. *)
Definition constant_handler (mode verdict : bool) : Handler unit :=
  stub_handler
    (fun w => (mode, w))
    (fun r w =>
       ({| hasAllRequested := verdict;
           missing := if verdict then [] else required_actions r |}, w)).

(** A mode that changes at every read: the state is what the next read
    answers. *)
Definition toggling_handler : Handler bool :=
  stub_handler
    (fun w => (ext w, mkWorld (negb (ext w)) (heap w)))
    (fun r w => ({| hasAllRequested := true; missing := [] |}, w)).

Definition empty_world {W} (x : W) : World W := mkWorld x ∅.

(** * Facts

    ** JavaScript strings *)
Module JsStringFacts.
Import JsString.

Lemma split_all_nonempty sep s : split_all sep s <> [].
Proof.
  destruct s as [|c s]; simpl; [discriminate|].
  destruct (Ascii.eqb c sep); [discriminate|].
  destruct (split_all sep s); discriminate.
Qed.

(** The first piece is the text up to the first separator, and the other
    pieces are those of what follows it. *)
Lemma split_all_unfold sep s :
  split_all sep s =
  upto sep s :: match after sep s with
                | Some rest => split_all sep rest
                | None => []
                end.
Proof.
  induction s as [|c s IH]; simpl; [reflexivity|].
  destruct (Ascii.eqb c sep); [reflexivity|].
  rewrite IH. reflexivity.
Qed.

Lemma startsWith_app s p : startsWith s p = true -> s = p +:+ drop (String.length p) s.
Proof.
  revert s; induction p as [|b p IH]; intros s H; [reflexivity|].
  destruct s as [|a s]; simpl in H; [discriminate H|].
  destruct (Ascii.eqb a b) eqn:E; [|discriminate H].
  apply Ascii.eqb_eq in E as ->.
  change (String b s = String b (p +:+ drop (String.length p) s)).
  f_equal. apply IH, H.
Qed.

Lemma app_startsWith p r : startsWith (p +:+ r) p = true.
Proof.
  induction p as [|b p IH]; [reflexivity|].
  change (startsWith (String b (p +:+ r)) (String b p) = true).
  simpl. rewrite Ascii.eqb_refl. exact IH.
Qed.

Lemma upto_no_sep sep s : contains sep (upto sep s) = false.
Proof.
  induction s as [|c s IH]; simpl; [reflexivity|].
  destruct (Ascii.eqb c sep) eqn:E; simpl; [reflexivity|].
  rewrite E. exact IH.
Qed.

Lemma upto_id sep s : contains sep s = false -> upto sep s = s.
Proof.
  induction s as [|c s IH]; simpl; [reflexivity|].
  destruct (Ascii.eqb c sep); [discriminate|].
  intros H. f_equal. apply IH, H.
Qed.

Lemma startsWith_exclusive s p q :
  startsWith s p = true -> startsWith s q = true ->
  String.length p = String.length q -> p = q.
Proof.
  revert s q; induction p as [|b p IH]; intros s [|c q] Hp Hq Hl;
    try discriminate; [reflexivity|].
  destruct s as [|a s]; simpl in Hp, Hq; [discriminate Hp|].
  destruct (Ascii.eqb a b) eqn:E1; [|discriminate Hp].
  destruct (Ascii.eqb a c) eqn:E2; [|discriminate Hq].
  apply Ascii.eqb_eq in E1, E2. subst. f_equal.
  apply (IH s); auto.
Qed.

(** After a prefix of five characters that starts and ends with the
    separator and has none in between ("/app/", "/api/"), the entry 2 of
    [split(sep, 3)] is the text from there up to the next separator. *)
Lemma split3_segment sep s p1 p2 p3 :
  startsWith s (String sep (String p1 (String p2 (String p3 (String sep ""))))) = true ->
  Ascii.eqb p1 sep = false -> Ascii.eqb p2 sep = false -> Ascii.eqb p3 sep = false ->
  split s sep 3 !! 2 = Some (upto sep (drop 5 s)).
Proof.
  intros H H1 H2 H3. apply startsWith_app in H.
  set (r := drop _ s) in H.
  change (drop 5 s) with r. clearbody r. subst s.
  unfold split.
  change (String sep (String p1 (String p2 (String p3 (String sep "")))) +:+ r)
    with (String sep (String p1 (String p2 (String p3 (String sep r))))).
  cbn [split_all].
  rewrite Ascii.eqb_refl, H1, H2, H3. rewrite (split_all_unfold _ r).
  reflexivity.
Qed.

(** After a prefix of [n] characters without the separator followed by
    the separator ("access:"), the entry 1 of [split(sep, 2)] is the text
    from there up to the next separator. *)
Lemma split2_segment sep s p :
  startsWith s (p +:+ String sep "") = true ->
  contains sep p = false ->
  split s sep 2 !! 1 = Some (upto sep (drop (S (String.length p)) s)).
Proof.
  intros H Hp. apply startsWith_app in H.
  assert (L : String.length (p +:+ String sep "") = S (String.length p)).
  { clear. induction p as [|c p IH]; [reflexivity|].
    change (S (String.length (p +:+ String sep "")) = S (S (String.length p))).
    now rewrite IH. }
  rewrite L in H. set (r := drop _ s) in *. clearbody r. subst s.
  unfold split. rewrite split_all_unfold.
  assert (A : forall q, contains sep q = false ->
              after sep ((q +:+ String sep "") +:+ r) = Some r).
  { clear. induction q as [|c q IH]; intros Hq.
    - change (after sep (String sep r) = Some r). simpl. now rewrite Ascii.eqb_refl.
    - change (after sep (String c ((q +:+ String sep "") +:+ r)) = Some r).
      simpl in Hq |- *. destruct (Ascii.eqb c sep); [discriminate Hq|]. now apply IH. }
  rewrite (A p Hp). rewrite (split_all_unfold sep r).
  reflexivity.
Qed.

End JsStringFacts.

Arguments JsString.startsWith : simpl never.
Arguments JsString.split : simpl never.

(** ** The interceptor *)

Lemma app_not_api s :
  JsString.startsWith s "/app/" = true -> JsString.startsWith s "/api/" = false.
Proof.
  intros H. destruct (JsString.startsWith s "/api/") eqn:E; [|reflexivity].
  pose proof (JsStringFacts.startsWith_exclusive _ _ _ H E eq_refl). discriminate.
Qed.

Lemma app_segment s :
  JsString.startsWith s "/app/" = true ->
  index (JsString.split s "/" 3) 2 = Some (third_segment s).
Proof. intros H. apply (JsStringFacts.split3_segment "/" s "a" "p" "p" H); reflexivity. Qed.

Lemma api_segment s :
  JsString.startsWith s "/api/" = true ->
  index (JsString.split s "/" 3) 2 = Some (third_segment s).
Proof. intros H. apply (JsStringFacts.split3_segment "/" s "a" "p" "i" H); reflexivity. Qed.

Lemma access_segment tag :
  JsString.startsWith tag "access:" = true ->
  index (JsString.split tag ":" 2) 1 = Some (operation_of tag).
Proof. intros H. apply (JsStringFacts.split2_segment ":" tag "access" H). reflexivity. Qed.

(** The equations of a run. *)
Section RunEquations.

Variable W : Type.
Variable handler : Handler W.

Lemma result_bind R S (m : M W R) (k : R -> M W S) (w : World W) :
  result (bind m k w) = result (k (result (m w)) (final (m w))).
Proof. reflexivity. Qed.

Lemma final_bind R S (m : M W R) (k : R -> M W S) (w : World W) :
  final (bind m k w) = final (k (result (m w)) (final (m w))).
Proof. reflexivity. Qed.

Lemma trace_bind R S (m : M W R) (k : R -> M W S) (w : World W) :
  trace (bind m k w) = (trace (m w) ++ trace (k (result (m w)) (final (m w))))%list.
Proof. reflexivity. Qed.

Lemma result_call (c : Call) (w : World W) : result (call handler c w) = fst (handler c w).
Proof. reflexivity. Qed.

Lemma final_call (c : Call) (w : World W) : final (call handler c w) = snd (handler c w).
Proof. reflexivity. Qed.

Lemma trace_call (c : Call) (w : World W) : trace (call handler c w) = [c].
Proof. reflexivity. Qed.

Lemma result_ret R (x : R) (w : World W) : result (ret x w) = x.
Proof. reflexivity. Qed.

Lemma final_ret R (x : R) (w : World W) : final (ret x w) = w.
Proof. reflexivity. Qed.

Lemma trace_ret R (x : R) (w : World W) : trace (ret x w) = [].
Proof. reflexivity. Qed.

Lemma result_spread (o : loc) (w : World W) : result (spread o w) = fresh (dom (heap w)).
Proof. reflexivity. Qed.

Lemma final_spread (o : loc) (w : World W) :
  final (spread o w) =
  mkWorld (ext w) (<[fresh (dom (heap w)) := default ∅ (heap w !! o)]> (heap w)).
Proof. reflexivity. Qed.

Lemma trace_spread (o : loc) (w : World W) : trace (spread o w) = [].
Proof. reflexivity. Qed.

Lemma result_get_prop (o : loc) (key : string) (w : World W) :
  result (get_prop o key w) = default VUndefined (default ∅ (heap w !! o) !! key).
Proof. reflexivity. Qed.

Lemma final_get_prop (o : loc) (key : string) (w : World W) : final (get_prop o key w) = w.
Proof. reflexivity. Qed.

Lemma trace_get_prop (o : loc) (key : string) (w : World W) : trace (get_prop o key w) = [].
Proof. reflexivity. Qed.

Lemma final_set_prop (o : loc) (key : string) (v : JsVal) (w : World W) :
  final (set_prop o key v w) =
  mkWorld (ext w) (alter (fun obj : gmap string JsVal => <[key := v]> obj) o (heap w)).
Proof. reflexivity. Qed.

Lemma trace_set_prop (o : loc) (key : string) (v : JsVal) (w : World W) :
  trace (set_prop o key v w) = [].
Proof. reflexivity. Qed.

End RunEquations.

(** Following a run call by call, down to the answers of the collaborators. *)
Ltac run_step :=
  rewrite ?result_bind, ?final_bind, ?trace_bind,
    ?result_call, ?final_call, ?trace_call,
    ?result_ret, ?final_ret, ?trace_ret,
    ?result_spread, ?final_spread, ?trace_spread,
    ?result_get_prop, ?final_get_prop, ?trace_get_prop,
    ?final_set_prop, ?trace_set_prop;
  cbv beta; cbn [app heap ext].

Ltac run :=
  unfold onPostAuth, enforceApi, replaceInjectedVars, scopedSavedObjectsClientFactory,
    scopedSavedObjectsClientWrapperFactory, injectDefaultVars, onLicense, loginVars;
  repeat (progress run_step).

Ltac branches :=
  repeat match goal with
         | |- context [if ?b then _ else _] => destruct b; run
         end.

(** C1. In legacy mode ([mode.useRbac()] answers false) the interceptor lets
    every request continue and its only call is the mode read: it neither
    calls [checkPrivilegesDynamicallyWithRequest] nor checks a privilege; and
    the wrapper factory returns the client it was given, without building a
    [SecureSavedObjectsClientWrapper]. *)
Theorem legacy_mode_bypasses_checker
  W (handler : Handler W) (w : World W) (req : Request) (client : Client) :
  fst (handler UseRbac w) = false ->
  (result (onPostAuth handler req w) = h_continue /\
   trace (onPostAuth handler req w) = [UseRbac] /\
   count is_CheckPrivilegesDynamicallyWithRequest (trace (onPostAuth handler req w)) = 0 /\
   count is_CheckPrivileges (trace (onPostAuth handler req w)) = 0) /\
  (result (scopedSavedObjectsClientWrapperFactory handler client req w) = client /\
   trace (scopedSavedObjectsClientWrapperFactory handler client req w) = [UseRbac] /\
   count is_NewSecureSavedObjectsClientWrapper
     (trace (scopedSavedObjectsClientWrapperFactory handler client req w)) = 0).
Proof.
  intros Hmode. run. rewrite Hmode. cbn [negb]. run. repeat split.
Qed.

Lemma legacy_mode_bypasses_checker_witness :
  fst (sample_handler UseRbac (sample_world false [] false ∅)) = false /\
  result (onPostAuth sample_handler
            (request "/api/console/proxy" VUndefined (Some ["access:console"]))
            (sample_world false [] false ∅)) = h_continue.
Proof.
  split; [reflexivity|].
  apply (legacy_mode_bypasses_checker Sample sample_handler
           (sample_world false [] false ∅)
           (request "/api/console/proxy" VUndefined (Some ["access:console"]))
           (client_handle 0)).
  reflexivity.
Defined.

(** The run of the interceptor on a path under [/app/], in RBAC mode. *)
Lemma onPostAuth_app W (handler : Handler W) (w : World W) (req : Request) :
  fst (handler UseRbac w) = true ->
  JsString.startsWith (path req) "/app/" = true ->
  trace (onPostAuth handler req w) =
    [UseRbac; CheckPrivilegesDynamicallyWithRequest req;
     CheckPrivileges
       (fst (handler (CheckPrivilegesDynamicallyWithRequest req) (snd (handler UseRbac w))))
       (One (actions_app_get (Some (third_segment (path req)))))] /\
  (hasAllRequested (app_check handler req w) = false <->
   result (onPostAuth handler req w) = takeover (Boom_notFound None)) /\
  (hasAllRequested (app_check handler req w) = true <->
   result (onPostAuth handler req w) = h_continue).
Proof.
  intros Hmode Hpath. unfold app_check. run. rewrite Hmode. cbn [negb]. run.
  rewrite Hpath. run. rewrite (app_segment _ Hpath), (app_not_api _ Hpath).
  destruct (hasAllRequested _); cbn [negb]; run; repeat split; intros; congruence.
Qed.

(** C3. In RBAC mode, for a path that starts with [/app/] the interceptor
    requires the one action [actions.app.get(appId)], where [appId] is entry
    2 of the path split at [/] (the text after [/app/] up to the next
    slash); it checks privileges once, with that single action, answers with
    the not-found error when [hasAllRequested] is false and continues
    otherwise. *)
Theorem app_path_requires_app_action
  W (handler : Handler W) (w : World W) (req : Request) :
  fst (handler UseRbac w) = true ->
  JsString.startsWith (path req) "/app/" = true ->
  let w1 := snd (handler UseRbac w) in
  let checkPrivileges := fst (handler (CheckPrivilegesDynamicallyWithRequest req) w1) in
  let w2 := snd (handler (CheckPrivilegesDynamicallyWithRequest req) w1) in
  let appId := third_segment (path req) in
  let check := CheckPrivileges checkPrivileges (One (actions_app_get (Some appId))) in
  let response := fst (handler check w2) in
  JsString.split_all "/" (path req) !! 2 = Some appId /\
  trace (onPostAuth handler req w) =
    [UseRbac; CheckPrivilegesDynamicallyWithRequest req; check] /\
  count is_CheckPrivileges (trace (onPostAuth handler req w)) = 1 /\
  (hasAllRequested response = false <->
   result (onPostAuth handler req w) = takeover (Boom_notFound None)) /\
  (hasAllRequested response = true <->
   result (onPostAuth handler req w) = h_continue).
Proof.
  intros Hmode Hpath. cbv zeta. split.
  { pose proof (app_segment _ Hpath) as H. unfold index, JsString.split in H.
    rewrite lookup_take_lt in H by lia. exact H. }
  destruct (onPostAuth_app W handler w req Hmode Hpath) as (Ht & Hd & Hc).
  rewrite Ht. repeat split; try apply Hd; try apply Hc.
Qed.

Lemma app_path_requires_app_action_witness :
  result (onPostAuth sample_handler (request "/app/monitoring" VUndefined None)
            (sample_world true [actions_app_get (Some "kibana")] false ∅))
  = takeover (Boom_notFound None).
Proof.
  apply (app_path_requires_app_action Sample sample_handler
           (sample_world true [actions_app_get (Some "kibana")] false ∅)
           (request "/app/monitoring" VUndefined None) eq_refl eq_refl).
  reflexivity.
Defined.

Lemma apiActions_eq (p : string) (l : list string) :
  JsString.startsWith p "/api/" = true ->
  (forall tag, In tag l -> JsString.startsWith tag "access:" = true) ->
  apiActions p l =
  List.map (fun tag => actions_api_get (third_segment p +:+ "/" +:+ operation_of tag)) l.
Proof.
  intros Hp Hl. unfold apiActions. rewrite (api_segment _ Hp).
  apply map_ext_in. intros tag Hin. rewrite (access_segment _ (Hl _ Hin)). reflexivity.
Qed.

Lemma actionTags_access (req : Request) (tag : string) :
  In tag (actionTags req) <->
  In tag (default [] (tags (settings (route req)))) /\
  JsString.startsWith tag "access:" = true.
Proof.
  unfold actionTags.
  exact (List.filter_In (fun t => JsString.startsWith t "access:") tag
           (default [] (tags (settings (route req))))).
Qed.

(** C4, as the code has it. In RBAC mode, for a path that starts with
    [/api/]: when the route has tags that start with [access:], the
    interceptor checks privileges once, with the array of
    [actions.api.get(feature/operation)], one per such tag in order, where
    [feature] is entry 2 of the path split at [/] and [operation] is the text
    of the tag after [access:] up to the next colon (all of it when it has no
    further colon); it answers with the not-found error exactly when
    [hasAllRequested] is false.  When the route has no such tag, it
    continues without checking a privilege. *)
Theorem api_path_requires_tag_actions
  W (handler : Handler W) (w : World W) (req : Request) :
  fst (handler UseRbac w) = true ->
  JsString.startsWith (path req) "/api/" = true ->
  let w1 := snd (handler UseRbac w) in
  let checkPrivileges := fst (handler (CheckPrivilegesDynamicallyWithRequest req) w1) in
  let w2 := snd (handler (CheckPrivilegesDynamicallyWithRequest req) w1) in
  let feature := third_segment (path req) in
  let required :=
    List.map (fun tag => actions_api_get (feature +:+ "/" +:+ operation_of tag))
             (actionTags req) in
  let check := CheckPrivileges checkPrivileges (Many required) in
  let response := fst (handler check w2) in
  (forall tag, JsString.contains ":" (text_after_access tag) = false ->
               operation_of tag = text_after_access tag) /\
  (actionTags req <> [] ->
   trace (onPostAuth handler req w) =
     [UseRbac; CheckPrivilegesDynamicallyWithRequest req; check] /\
   count is_CheckPrivileges (trace (onPostAuth handler req w)) = 1 /\
   (hasAllRequested response = false <->
    result (onPostAuth handler req w) = takeover (Boom_notFound None)) /\
   (hasAllRequested response = true <->
    result (onPostAuth handler req w) = h_continue)) /\
  (actionTags req = [] ->
   trace (onPostAuth handler req w) = [UseRbac; CheckPrivilegesDynamicallyWithRequest req] /\
   count is_CheckPrivileges (trace (onPostAuth handler req w)) = 0 /\
   result (onPostAuth handler req w) = h_continue).
Proof.
  intros Hmode Hpath. cbv zeta.
  assert (Happ : JsString.startsWith (path req) "/app/" = false).
  { destruct (JsString.startsWith (path req) "/app/") eqn:E; [|reflexivity].
    pose proof (app_not_api _ E). congruence. }
  split; [intros tag; apply JsStringFacts.upto_id|].
  split.
  - intros Hne. run. rewrite Hmode. cbn [negb]. run. rewrite Happ, Hpath.
    destruct (actionTags req) as [|t l] eqn:Et; [congruence|].
    cbn [List.length Nat.ltb Nat.leb]. run.
    rewrite apiActions_eq; [|assumption|].
    + destruct (hasAllRequested _); cbn [negb]; run; repeat split; intros; congruence.
    + intros tag Hin. rewrite <- Et in Hin. apply actionTags_access in Hin. tauto.
  - intros He. run. rewrite Hmode. cbn [negb]. run. rewrite Happ, Hpath, He.
    cbn [List.length Nat.ltb Nat.leb]. run. repeat split; reflexivity.
Qed.

Lemma api_path_requires_tag_actions_witness :
  trace (onPostAuth sample_handler
           (request "/api/console/proxy" VUndefined (Some ["access:console"; "internal"]))
           (sample_world true [] false ∅))
  = [UseRbac;
     CheckPrivilegesDynamicallyWithRequest
       (request "/api/console/proxy" VUndefined (Some ["access:console"; "internal"]));
     CheckPrivileges (checker 0) (Many [actions_api_get "console/console"])].
Proof.
  apply (api_path_requires_tag_actions Sample sample_handler
           (sample_world true [] false ∅)
           (request "/api/console/proxy" VUndefined (Some ["access:console"; "internal"]))
           eq_refl eq_refl).
  discriminate.
Defined.

(** C4, as stated, fails: with the tag [access:console:admin] the text after
    [access:] is [console:admin], but the interceptor asks for the action of
    [console/console]. *)
Lemma api_operation_counterexample :
  text_after_access "access:console:admin" = "console:admin" /\
  trace (onPostAuth sample_handler
           (request "/api/console/proxy" VUndefined (Some ["access:console:admin"]))
           (sample_world true [] false ∅))
  = [UseRbac;
     CheckPrivilegesDynamicallyWithRequest
       (request "/api/console/proxy" VUndefined (Some ["access:console:admin"]));
     CheckPrivileges (checker 0) (Many [actions_api_get "console/console"])] /\
  ~ In (CheckPrivileges (checker 0) (Many [actions_api_get "console/console:admin"]))
       (trace (onPostAuth sample_handler
                 (request "/api/console/proxy" VUndefined (Some ["access:console:admin"]))
                 (sample_world true [] false ∅))).
Proof.
  split; [reflexivity|]. split; [reflexivity|].
  vm_compute. intros [H|[H|[H|[]]]]; discriminate H.
Qed.

(** The only response the interceptor itself produces is the not-found
    error without a message: nothing of the request goes into it. *)
Lemma onPostAuth_only_not_found
  W (handler : Handler W) (w : World W) (req : Request) (response : Boom) :
  result (onPostAuth handler req w) = takeover response ->
  response = Boom_notFound None.
Proof.
  run. branches; intros H; congruence.
Qed.

(** C2, as the code has it. In RBAC mode, two requests to paths under
    [/app/] whose app actions the checker reports as not satisfied get the
    same response from the interceptor, the not-found error without a
    message, whichever applications they name and whether or not these
    exist.  (A request for an application whose action the checker reports
    as satisfied is passed on; what answers it is not the interceptor.) *)
Theorem denied_apps_indistinguishable
  W (handler : Handler W) (w w' : World W) (denied other : Request) :
  fst (handler UseRbac w) = true ->
  fst (handler UseRbac w') = true ->
  JsString.startsWith (path denied) "/app/" = true ->
  JsString.startsWith (path other) "/app/" = true ->
  hasAllRequested (app_check handler denied w) = false ->
  hasAllRequested (app_check handler other w') = false ->
  result (onPostAuth handler denied w) = result (onPostAuth handler other w') /\
  result (onPostAuth handler denied w) = takeover (Boom_notFound None).
Proof.
  intros Hw Hw' Hd Ho Cd Co.
  pose proof (onPostAuth_app W handler w denied Hw Hd) as (_ & [Ad _] & _).
  pose proof (onPostAuth_app W handler w' other Hw' Ho) as (_ & [Ao _] & _).
  rewrite (Ad Cd), (Ao Co). split; reflexivity.
Qed.

Lemma denied_apps_indistinguishable_witness :
  result (onPostAuth sample_handler (request "/app/monitoring" VUndefined None)
            (sample_world true [actions_app_get (Some "kibana")] false ∅))
  = result (onPostAuth sample_handler (request "/app/ghost/x" VUndefined None)
              (sample_world true [actions_app_get (Some "kibana")] false ∅)).
Proof.
  apply (denied_apps_indistinguishable Sample sample_handler
           (sample_world true [actions_app_get (Some "kibana")] false ∅)
           (sample_world true [actions_app_get (Some "kibana")] false ∅)
           (request "/app/monitoring" VUndefined None)
           (request "/app/ghost/x" VUndefined None));
    reflexivity.
Defined.

(** C2, as stated, fails: a principal that is denied [/app/monitoring] and
    asks for [/app/ghost], an application that no plugin registers but whose
    action the checker reports as satisfied, is answered with the not-found
    error for the first and with [h.continue] for the second. *)
Lemma nonexistent_app_counterexample :
  fst (sample_handler UseRbac (sample_world true [actions_app_get (Some "ghost")] false ∅))
  = true /\
  hasAllRequested
    (app_check sample_handler (request "/app/monitoring" VUndefined None)
       (sample_world true [actions_app_get (Some "ghost")] false ∅)) = false /\
  result (onPostAuth sample_handler (request "/app/monitoring" VUndefined None)
            (sample_world true [actions_app_get (Some "ghost")] false ∅))
  = takeover (Boom_notFound None) /\
  result (onPostAuth sample_handler (request "/app/ghost" VUndefined None)
            (sample_world true [actions_app_get (Some "ghost")] false ∅))
  = h_continue /\
  result (onPostAuth sample_handler (request "/app/ghost" VUndefined None)
            (sample_world true [actions_app_get (Some "ghost")] false ∅))
  <> result (onPostAuth sample_handler (request "/app/monitoring" VUndefined None)
               (sample_world true [actions_app_get (Some "ghost")] false ∅)).
Proof.
  repeat split; try reflexivity. vm_compute. discriminate.
Qed.

(** C8. For every request, whatever the collaborators do to the mode while
    the request is handled, the interceptor reads the mode once, as its
    first call and so before any privilege check; no later call reads it
    again, and the whole run is the run under that one observed value. *)
Theorem mode_read_once W (handler : Handler W) (w : World W) (req : Request) :
  (exists rest,
      trace (onPostAuth handler req w) = UseRbac :: rest /\
      count is_UseRbac rest = 0) /\
  count is_UseRbac (trace (onPostAuth handler req w)) = 1 /\
  onPostAuth handler req w = onPostAuth (pinned handler (fst (handler UseRbac w))) req w.
Proof.
  split; [|split].
  - run. eexists. split; [reflexivity|]. branches; reflexivity.
  - run. branches; reflexivity.
  - reflexivity.
Qed.

(** A mode change in flight: the check flips the mode to legacy, and the
    request is still decided as the RBAC request it started as. *)
Example mode_flip_in_flight :
  rbac (ext (final (onPostAuth sample_handler (request "/app/monitoring" VUndefined None)
                      (sample_world true [] true ∅)))) = false /\
  result (onPostAuth sample_handler (request "/app/monitoring" VUndefined None)
            (sample_world true [] true ∅)) = takeover (Boom_notFound None).
Proof. split; reflexivity. Qed.

(** ** The saved-objects client factories *)

(** C9. The client factory builds one repository per call: over
    [callWithInternalUser] when [mode.useRbac()] answers true, and over the
    function that calls the cluster with the request when it answers false;
    the client it returns is built on that repository. *)
Theorem client_factory_selects_credentials
  W (handler : Handler W) (w : World W) (request : Request) :
  let adminCluster := fst (handler (GetCluster "admin") w) in
  let w1 := snd (handler (GetCluster "admin") w) in
  let rbac := fst (handler UseRbac w1) in
  let w2 := snd (handler UseRbac w1) in
  let callCluster :=
    if rbac then callWithInternalUser adminCluster
    else callWithRequest adminCluster request in
  let repo := fst (handler (GetSavedObjectsRepository callCluster) w2) in
  let w3 := snd (handler (GetSavedObjectsRepository callCluster) w2) in
  trace (scopedSavedObjectsClientFactory handler request w) =
    [GetCluster "admin"; UseRbac; GetSavedObjectsRepository callCluster;
     NewSavedObjectsClient repo] /\
  count is_GetSavedObjectsRepository
    (trace (scopedSavedObjectsClientFactory handler request w)) = 1 /\
  result (scopedSavedObjectsClientFactory handler request w) =
    fst (handler (NewSavedObjectsClient repo) w3).
Proof.
  cbv zeta. run.
  destruct (fst (handler UseRbac (snd (handler (GetCluster "admin") w)))) eqn:E;
    run; repeat split; reflexivity.
Qed.

(** ** The injected vars *)

(** The copy made by the spread, the call on the value of [uiCapabilities]
    and the definition of that property on the copy: the copy is a new
    object, the original stays as it is. *)
Lemma spread_define W (handler : Handler W) (c : Call) (value : answer c -> JsVal)
  (w : World W) (o : loc) (obj : gmap string JsVal) :
  preserves_objects handler ->
  heap w !! o = Some obj ->
  let vars := fresh (dom (heap w)) in
  let w' := mkWorld (ext w) (<[vars := obj]> (heap w)) in
  let disabled := value (fst (handler c w')) in
  let h := alter (fun x : gmap string JsVal => <["uiCapabilities" := disabled]> x) vars
             (heap (snd (handler c w'))) in
  vars <> o /\ h !! o = Some obj /\ h !! vars = Some (<["uiCapabilities" := disabled]> obj).
Proof.
  intros Hp Ho. cbv zeta.
  set (vars := fresh (dom (heap w))).
  assert (Hne : vars <> o).
  { intros E. pose proof (is_fresh (dom (heap w))) as Hf. apply Hf.
    fold vars. rewrite E. apply elem_of_dom. eauto. }
  split; [exact Hne|]. split.
  - rewrite lookup_alter_ne by exact Hne. apply Hp. cbn.
    rewrite lookup_insert_ne by exact Hne. exact Ho.
  - rewrite lookup_alter_eq. erewrite Hp; [reflexivity|]. cbn. apply lookup_insert_eq.
Qed.

Lemma strict_eq_false_spec (v : JsVal) : strict_eq_false v = true <-> v = VBool false.
Proof.
  split; [|intros ->; reflexivity].
  destruct v as [| |[]| | | |]; cbn; intros H; congruence.
Qed.

(** The run of [replaceInjectedVars] in RBAC mode. *)
Lemma replaceInjectedVars_rbac
  W (handler : Handler W) (w : World W) (o : loc) (obj : gmap string JsVal)
  (request : Request) :
  preserves_objects handler ->
  heap w !! o = Some obj ->
  fst (handler UseRbac w) = true ->
  let w1 := snd (handler UseRbac w) in
  let d := fst (handler (DisableUICapabilitesFactory request) w1) in
  let uiCapabilities := default VUndefined (obj !! "uiCapabilities") in
  let anonymous := strict_eq_false (auth (settings (route request))) in
  let r := replaceInjectedVars handler o request w in
  trace r = [UseRbac; DisableUICapabilitesFactory request;
             if anonymous then DisableAll d uiCapabilities
             else DisableUsingPrivileges d uiCapabilities] /\
  result r <> o /\
  heap (final r) !! o = Some obj /\
  exists w',
    heap (final r) !! result r =
    Some (<["uiCapabilities" :=
              if anonymous then fst (handler (DisableAll d uiCapabilities) w')
              else fst (handler (DisableUsingPrivileges d uiCapabilities) w')]> obj).
Proof.
  intros Hp Ho Hmode. cbv zeta.
  pose proof (Hp UseRbac w o obj Ho) as Ho1.
  pose proof (Hp (DisableUICapabilitesFactory request) _ o obj Ho1) as Ho2.
  run. rewrite Hmode. cbn [negb]. run.
  set (w1 := snd (handler UseRbac w)) in *.
  set (d := fst (handler (DisableUICapabilitesFactory request) w1)) in *.
  set (w2 := snd (handler (DisableUICapabilitesFactory request) w1)) in *.
  assert (Hfresh : fresh (dom (heap w2)) <> o).
  { intros E. apply (is_fresh (dom (heap w2))). rewrite E. apply elem_of_dom. eauto. }
  destruct (strict_eq_false (auth (settings (route request)))); run;
    rewrite !Ho2; cbn [default from_option id];
    rewrite (lookup_insert_ne _ _ _ _ Hfresh), Ho2; cbn [default from_option id].
  - destruct (spread_define W handler
                (DisableAll d (default VUndefined (obj !! "uiCapabilities")))
                (fun x => x) w2 o obj Hp Ho2) as (Hne & Hkeep & Hnew).
    repeat split; [exact Hne | exact Hkeep |]. eexists. exact Hnew.
  - destruct (spread_define W handler
                (DisableUsingPrivileges d (default VUndefined (obj !! "uiCapabilities")))
                (fun x => x) w2 o obj Hp Ho2) as (Hne & Hkeep & Hnew).
    repeat split; [exact Hne | exact Hkeep |]. eexists. exact Hnew.
Qed.

(** C5. [replaceInjectedVars] leaves the object it is given as it is.  When
    [mode.useRbac()] answers false it returns that same object and touches
    nothing else; when it answers true it returns a new object whose
    [uiCapabilities] is the answer of the disabler and whose other
    properties are those of the original. *)
Theorem replaceInjectedVars_keeps_input
  W (handler : Handler W) (w : World W) (o : loc) (obj : gmap string JsVal)
  (request : Request) :
  preserves_objects handler ->
  heap w !! o = Some obj ->
  let w1 := snd (handler UseRbac w) in
  let d := fst (handler (DisableUICapabilitesFactory request) w1) in
  let uiCapabilities := default VUndefined (obj !! "uiCapabilities") in
  let anonymous := strict_eq_false (auth (settings (route request))) in
  let r := replaceInjectedVars handler o request w in
  heap (final r) !! o = Some obj /\
  (fst (handler UseRbac w) = false -> result r = o /\ final r = w1) /\
  (fst (handler UseRbac w) = true ->
   result r <> o /\
   exists (vars : gmap string JsVal) (w' : World W),
     heap (final r) !! result r = Some vars /\
     vars !! "uiCapabilities" =
       Some (if anonymous then fst (handler (DisableAll d uiCapabilities) w')
             else fst (handler (DisableUsingPrivileges d uiCapabilities) w')) /\
     forall k, k <> "uiCapabilities" -> vars !! k = obj !! k).
Proof.
  intros Hp Ho. cbv zeta. split; [|split].
  - destruct (fst (handler UseRbac w)) eqn:Hmode.
    + apply (replaceInjectedVars_rbac W handler w o obj request Hp Ho Hmode).
    + run. rewrite Hmode. cbn [negb]. run. exact (Hp UseRbac w o obj Ho).
  - intros Hmode. run. rewrite Hmode. cbn [negb]. run. split; reflexivity.
  - intros Hmode.
    destruct (replaceInjectedVars_rbac W handler w o obj request Hp Ho Hmode)
      as (_ & Hne & _ & w' & Hnew).
    split; [exact Hne|]. eexists. exists w'. split; [exact Hnew|]. split.
    + apply lookup_insert_eq.
    + intros k Hk. apply lookup_insert_ne. congruence.
Qed.

Lemma sample_preserves : preserves_objects sample_handler.
Proof.
  intros c w l obj H.
  destruct c; cbn;
    repeat match goal with
           | |- context [match ?x with _ => _ end] => destruct x; cbn
           end;
    exact H.
Qed.

Lemma sample_all : all_disables_all sample_handler.
Proof. intros d m w. reflexivity. Qed.

Lemma replaceInjectedVars_keeps_input_witness :
  heap (final (replaceInjectedVars sample_handler 1%positive
                 (request "/app/kibana" (VStr "session") None)
                 (sample_world true [] false sample_heap))) !! 1%positive
  = Some sample_vars.
Proof.
  apply (replaceInjectedVars_keeps_input Sample sample_handler
           (sample_world true [] false sample_heap) 1%positive sample_vars
           (request "/app/kibana" (VStr "session") None)
           sample_preserves).
  apply lookup_insert_eq.
Defined.

Lemma disable_all_lookup (m : gmap string (gmap string bool)) (feature : string) :
  disable_all m !! feature =
  (fun capabilities : gmap string bool => (fun _ : bool => false) <$> capabilities)
    <$> (m !! feature).
Proof. unfold disable_all. apply lookup_fmap. Qed.

(** Every flag of the disabled map is false, and the map has the features
    and capabilities of the original. *)
Lemma disable_all_flags (m : gmap string (gmap string bool)) :
  (forall feature capabilities capability flag,
      disable_all m !! feature = Some capabilities ->
      capabilities !! capability = Some flag -> flag = false) /\
  (forall feature capability,
      is_Some (disable_all m !! feature ≫= (fun capabilities => capabilities !! capability)) <->
      is_Some (m !! feature ≫= (fun capabilities => capabilities !! capability))).
Proof.
  split.
  - intros feature capabilities capability flag Hf Hc.
    rewrite disable_all_lookup in Hf.
    destruct (m !! feature) as [caps|]; [|discriminate Hf].
    injection Hf as <-. rewrite lookup_fmap in Hc.
    destruct (caps !! capability); [|discriminate Hc]. now injection Hc as <-.
  - intros feature capability. rewrite disable_all_lookup.
    destruct (m !! feature) as [caps|]; cbn; [|reflexivity].
    rewrite lookup_fmap. destruct (caps !! capability); cbn; split; intros [x Hx]; eauto; discriminate.
Qed.

(** C6. In RBAC mode, on a route whose [auth] setting is strictly [false],
    [replaceInjectedVars] calls [disableUICapabilites.all] and neither
    [usingPrivileges] nor the checker; with the "disable all" of the spec,
    the [uiCapabilities] of the object it returns has every capability flag
    false and the features and capabilities of the original. *)
Theorem anonymous_route_disables_all
  W (handler : Handler W) (w : World W) (o : loc) (obj : gmap string JsVal)
  (request : Request) (m : gmap string (gmap string bool)) :
  preserves_objects handler ->
  all_disables_all handler ->
  heap w !! o = Some obj ->
  obj !! "uiCapabilities" = Some (VCaps m) ->
  fst (handler UseRbac w) = true ->
  auth (settings (route request)) = VBool false ->
  let d := fst (handler (DisableUICapabilitesFactory request) (snd (handler UseRbac w))) in
  let r := replaceInjectedVars handler o request w in
  trace r = [UseRbac; DisableUICapabilitesFactory request; DisableAll d (VCaps m)] /\
  count is_DisableUsingPrivileges (trace r) = 0 /\
  count is_CheckPrivileges (trace r) = 0 /\
  (exists vars : gmap string JsVal,
      heap (final r) !! result r = Some vars /\
      vars !! "uiCapabilities" = Some (VCaps (disable_all m))) /\
  (forall feature capabilities capability flag,
      disable_all m !! feature = Some capabilities ->
      capabilities !! capability = Some flag -> flag = false) /\
  (forall feature capability,
      is_Some (disable_all m !! feature ≫= (fun capabilities => capabilities !! capability)) <->
      is_Some (m !! feature ≫= (fun capabilities => capabilities !! capability))).
Proof.
  intros Hp Hall Ho Hcaps Hmode Hauth. cbv zeta.
  destruct (replaceInjectedVars_rbac W handler w o obj request Hp Ho Hmode)
    as (Ht & _ & _ & w' & Hnew).
  rewrite Hauth, Hcaps in Ht, Hnew. cbn [strict_eq_false default from_option id] in Ht, Hnew.
  rewrite Ht. repeat split; try apply disable_all_flags.
  eexists. split; [exact Hnew|]. rewrite lookup_insert_eq, Hall. reflexivity.
Qed.

Lemma anonymous_route_disables_all_witness :
  trace (replaceInjectedVars sample_handler 1%positive
           (request "/login" (VBool false) None)
           (sample_world true [] false sample_heap))
  = [UseRbac; DisableUICapabilitesFactory (request "/login" (VBool false) None);
     DisableAll (disabler 0) (VCaps sample_capabilities)].
Proof.
  apply (anonymous_route_disables_all Sample sample_handler
           (sample_world true [] false sample_heap) 1%positive sample_vars
           (request "/login" (VBool false) None) sample_capabilities
           sample_preserves sample_all).
  - apply lookup_insert_eq.
  - apply lookup_insert_eq.
  - reflexivity.
  - reflexivity.
Defined.

(** On any other route the disabler resolves privileges. *)
Lemma authenticated_route_uses_privileges
  W (handler : Handler W) (w : World W) (o : loc) (obj : gmap string JsVal)
  (request : Request) :
  preserves_objects handler ->
  heap w !! o = Some obj ->
  fst (handler UseRbac w) = true ->
  auth (settings (route request)) <> VBool false ->
  count is_DisableUsingPrivileges (trace (replaceInjectedVars handler o request w)) = 1.
Proof.
  intros Hp Ho Hmode Hauth.
  destruct (replaceInjectedVars_rbac W handler w o obj request Hp Ho Hmode) as (Ht & _).
  rewrite Ht.
  destruct (strict_eq_false (auth (settings (route request)))) eqn:E; [|reflexivity].
  apply strict_eq_false_spec in E. contradiction.
Qed.

(** ** The calls of [init] *)

Lemma trace_bind_call W (handler : Handler W) (c : Call) R (k : answer c -> M W R)
  (w : World W) :
  trace (bind (call handler c) k w) =
  c :: trace (k (fst (handler c w)) (snd (handler c w))).
Proof. reflexivity. Qed.

Lemma init_calls W (handler : Handler W) (w : World W) :
  trace (init handler w) =
  (before_exposure
     ++ [CreateAuthorizationService;
         DeepFreeze (created handler w);
         Expose "authorization" (frozen handler w)]
     ++ after_exposure)%list.
Proof. unfold init. rewrite !trace_bind_call. reflexivity. Qed.

(** ** The configuration *)

Lemma count_zero_not_in (p : Call -> bool) (c : Call) (t : list Call) :
  p c = true -> count p t = 0 -> ~ In c t.
Proof.
  intros Hc Hz Hin. unfold count in Hz.
  assert (Hf : In c (List.filter p t)) by (apply List.filter_In; auto).
  destruct (List.filter p t); [exact Hf | discriminate Hz].
Qed.

(** No function of the file asks the configuration for the legacy-fallback
    setting. *)
Lemma legacyFallback_never_asked W (handler : Handler W) (e : Entry) (w : World W) :
  count (is_ConfigGet legacyFallback_enabled) (calls handler e w) = 0.
Proof.
  destruct e; unfold calls;
    try (rewrite (init_calls W handler w); reflexivity);
    run; branches; reflexivity.
Qed.

(** X19. What the file itself asks of the configuration: the only
    [config.get] calls written in it are the three of [injectDefaultVars].
    In particular none of its functions asks for
    [xpack.security.authorization.legacyFallback.enabled], which its schema
    defaults to true and its deprecations declare [unused].  (What the
    collaborators that are handed the configuration read is not part of this
    statement.) *)
Theorem file_asks_three_settings :
  Joi.lookup legacyFallback_enabled (Joi.defaults configPrefix config)
  = Some (Joi.bool_ true) /\
  (In (unused "authorization.legacyFallback.enabled") deprecations /\
   configPrefix +:+ "." +:+ "authorization.legacyFallback.enabled" = legacyFallback_enabled) /\
  (forall W (handler : Handler W) (e : Entry) (w : World W),
      ~ In (ConfigGet legacyFallback_enabled) (calls handler e w)) /\
  (forall W (handler : Handler W) (e : Entry) (w : World W) (key : string),
      In (ConfigGet key) (calls handler e w) ->
      e = run_injectDefaultVars /\
      In key ["xpack.security.secureCookies"; "xpack.security.sessionTimeout";
              "xpack.spaces.enabled"]).
Proof.
  split; [reflexivity|]. split; [split; [left|]; reflexivity|]. split.
  - intros W handler e w. apply (count_zero_not_in (is_ConfigGet legacyFallback_enabled)).
    + reflexivity.
    + apply legacyFallback_never_asked.
  - intros W handler e w key.
    destruct e; unfold calls;
      try (rewrite (init_calls W handler w);
           unfold before_exposure, after_exposure; cbn [app]);
      run; branches; cbn [In];
      intros H; repeat (destruct H as [H|H]; try discriminate H); try contradiction;
      injection H as <-; split; cbn; auto.
Qed.

(** * More of the plugin

    ** The interceptor on every request *)

(** The whole run of the interceptor: the calls it makes and what it
    returns, by the mode it reads, by whether the request is one it checks,
    and by the answer of the check. *)
Lemma onPostAuth_run W (handler : Handler W) (w : World W) (req : Request) :
  let w1 := snd (handler UseRbac w) in
  let checkPrivileges := fst (handler (CheckPrivilegesDynamicallyWithRequest req) w1) in
  let w2 := snd (handler (CheckPrivilegesDynamicallyWithRequest req) w1) in
  let check := CheckPrivileges checkPrivileges (required_of req) in
  trace (onPostAuth handler req w) =
    (if fst (handler UseRbac w)
     then UseRbac :: CheckPrivilegesDynamicallyWithRequest req
                  :: (if protected req then [check] else [])
     else [UseRbac]) /\
  result (onPostAuth handler req w) =
    (if fst (handler UseRbac w) && protected req
        && negb (hasAllRequested (fst (handler check w2)))
     then takeover (Boom_notFound None)
     else h_continue).
Proof.
  cbv zeta. unfold protected, required_of. run.
  destruct (fst (handler UseRbac w)); cbn [negb andb]; run; [|split; reflexivity].
  destruct (JsString.startsWith (path req) "/app/") eqn:Happ; cbn [orb andb]; run.
  - rewrite (app_segment _ Happ), (app_not_api _ Happ).
    destruct (hasAllRequested _); cbn [negb]; run; split; reflexivity.
  - destruct (JsString.startsWith (path req) "/api/") eqn:Hapi; cbn [andb]; run;
      [|split; reflexivity].
    destruct (Nat.ltb 0 (List.length (actionTags req))); run; [|split; reflexivity].
    rewrite apiActions_eq.
    + destruct (hasAllRequested _); cbn [negb]; run; split; reflexivity.
    + exact Hapi.
    + intros tag Hin. apply actionTags_access in Hin. tauto.
Qed.

(** X1. In RBAC mode a request whose path is neither under [/app/] nor
    under [/api/] continues, and no privilege is checked for it, whatever
    tags its route carries ([access:] tags included). *)
Theorem other_paths_continue
  W (handler : Handler W) (w : World W) (req : Request) :
  fst (handler UseRbac w) = true ->
  JsString.startsWith (path req) "/app/" = false ->
  JsString.startsWith (path req) "/api/" = false ->
  result (onPostAuth handler req w) = h_continue /\
  trace (onPostAuth handler req w) = [UseRbac; CheckPrivilegesDynamicallyWithRequest req] /\
  count is_CheckPrivileges (trace (onPostAuth handler req w)) = 0.
Proof.
  intros Hmode Happ Hapi.
  destruct (onPostAuth_run W handler w req) as [Ht Hr].
  assert (Hp : protected req = false) by (unfold protected; now rewrite Happ, Hapi).
  rewrite Ht, Hr, Hmode, Hp. repeat split.
Qed.

Lemma other_paths_continue_witness :
  result (onPostAuth (constant_handler true false)
            (request "/elasticsearch/_search" VUndefined (Some ["access:console"]))
            (empty_world tt)) = h_continue.
Proof.
  apply (other_paths_continue unit (constant_handler true false) (empty_world tt)
           (request "/elasticsearch/_search" VUndefined (Some ["access:console"])));
    reflexivity.
Defined.

(** X2. Whatever the collaborators do, the interceptor checks privileges at
    most once per request: exactly once when the mode it read is RBAC and
    the request is one it checks, never otherwise; and the check it makes
    is made with the function [checkPrivilegesDynamicallyWithRequest]
    returned for this very request. *)
Theorem one_check_per_request W (handler : Handler W) (w : World W) (req : Request) :
  count is_CheckPrivileges (trace (onPostAuth handler req w)) =
    (if fst (handler UseRbac w) && protected req then 1 else 0) /\
  count is_CheckPrivilegesDynamicallyWithRequest (trace (onPostAuth handler req w)) =
    (if fst (handler UseRbac w) then 1 else 0) /\
  (forall c r,
      In (CheckPrivileges c r) (trace (onPostAuth handler req w)) ->
      c = fst (handler (CheckPrivilegesDynamicallyWithRequest req) (snd (handler UseRbac w)))
      /\ r = required_of req).
Proof.
  destruct (onPostAuth_run W handler w req) as [Ht _]. rewrite Ht.
  destruct (fst (handler UseRbac w)), (protected req); cbn;
    (split; [reflexivity | split; [reflexivity|] ]);
    intros c r H; repeat (destruct H as [H|H]; try discriminate H); try contradiction;
    injection H as <- <-; split; reflexivity.
Qed.

(** X3. The interceptor never denies a request without a failed check: when
    its answer is a response, the mode it read was RBAC, the request is one
    it checks, the checker reported that not all required actions are held,
    and the response is the not-found error without a message. *)
Theorem denial_needs_failed_check
  W (handler : Handler W) (w : World W) (req : Request) (response : Boom) :
  result (onPostAuth handler req w) = takeover response ->
  let w1 := snd (handler UseRbac w) in
  let checkPrivileges := fst (handler (CheckPrivilegesDynamicallyWithRequest req) w1) in
  let w2 := snd (handler (CheckPrivilegesDynamicallyWithRequest req) w1) in
  fst (handler UseRbac w) = true /\
  protected req = true /\
  hasAllRequested
    (fst (handler (CheckPrivileges checkPrivileges (required_of req)) w2)) = false /\
  response = Boom_notFound None.
Proof.
  cbv zeta. destruct (onPostAuth_run W handler w req) as [_ Hr]. rewrite Hr.
  destruct (fst (handler UseRbac w)), (protected req); cbn [andb]; try discriminate.
  destruct (hasAllRequested _); cbn [negb]; [discriminate|].
  intros H. injection H as <-. repeat split.
Qed.

Lemma denial_needs_failed_check_witness :
  protected (request "/api/console/proxy" VUndefined (Some ["access:console"])) = true.
Proof.
  apply (denial_needs_failed_check unit (constant_handler true false) (empty_world tt)
           (request "/api/console/proxy" VUndefined (Some ["access:console"]))
           (Boom_notFound None)).
  reflexivity.
Defined.

(** X4. A checker that reports every requirement as held never blocks: the
    interceptor then lets every request continue, in either mode. *)
Theorem granted_requests_continue
  W (handler : Handler W) (w : World W) (req : Request) :
  (forall c r w', hasAllRequested (fst (handler (CheckPrivileges c r) w')) = true) ->
  result (onPostAuth handler req w) = h_continue.
Proof.
  intros Hall. destruct (onPostAuth_run W handler w req) as [_ Hr]. rewrite Hr, Hall.
  now rewrite andb_false_r.
Qed.

Lemma granted_requests_continue_witness :
  result (onPostAuth (constant_handler true true)
            (request "/app/monitoring" VUndefined None) (empty_world tt)) = h_continue.
Proof.
  apply (granted_requests_continue unit (constant_handler true true) (empty_world tt)
           (request "/app/monitoring" VUndefined None)).
  intros c r w'. reflexivity.
Defined.

(** X5. With a checker that reports every requirement as not held, in RBAC
    mode the requests answered with the not-found error are exactly the
    ones the interceptor checks: the paths under [/app/], and the paths
    under [/api/] whose route carries an [access:] tag. *)
Theorem denied_exactly_when_protected
  W (handler : Handler W) (w : World W) (req : Request) :
  fst (handler UseRbac w) = true ->
  (forall c r w', hasAllRequested (fst (handler (CheckPrivileges c r) w')) = false) ->
  (result (onPostAuth handler req w) = takeover (Boom_notFound None) <->
   (JsString.startsWith (path req) "/app/" = true \/
    (JsString.startsWith (path req) "/api/" = true /\
     exists tag, In tag (default [] (tags (settings (route req)))) /\
                 JsString.startsWith tag "access:" = true))).
Proof.
  intros Hmode Hnone. destruct (onPostAuth_run W handler w req) as [_ Hr].
  rewrite Hr, Hmode, Hnone. cbn [andb negb]. rewrite andb_true_r.
  unfold protected.
  destruct (JsString.startsWith (path req) "/app/"); cbn [orb].
  { split; [intros _; left; reflexivity | reflexivity]. }
  destruct (JsString.startsWith (path req) "/api/"); cbn [andb].
  2:{ split; [discriminate|]. intros [H|[H _]]; discriminate H. }
  destruct (actionTags req) as [|tag l] eqn:Et; cbn [List.length Nat.ltb Nat.leb].
  - split; [discriminate|]. intros [H|[_ (tag & Hin & Htag)]]; [discriminate H|].
    assert (Hmem : In tag (actionTags req)) by (apply actionTags_access; auto).
    rewrite Et in Hmem. contradiction.
  - split; [|reflexivity]. intros _. right. split; [reflexivity|].
    exists tag. apply actionTags_access. rewrite Et. now left.
Qed.

Lemma denied_exactly_when_protected_witness :
  result (onPostAuth (constant_handler true false)
            (request "/api/console/proxy" VUndefined (Some ["internal"; "access:console"]))
            (empty_world tt)) = takeover (Boom_notFound None).
Proof.
  apply (denied_exactly_when_protected unit (constant_handler true false) (empty_world tt)
           (request "/api/console/proxy" VUndefined (Some ["internal"; "access:console"]))
           eq_refl (fun c r w' => eq_refl)).
  right. split; [reflexivity|]. exists "access:console". split; [|reflexivity].
  right. left. reflexivity.
Defined.

(** ** What the interceptor reads from a path and from a tag *)

Lemma upto_rest (sep : ascii) (s : string) :
  s = JsString.upto sep s +:+ match JsString.after sep s with
                              | Some r => String sep r
                              | None => ""
                              end.
Proof.
  induction s as [|c s IH]; [reflexivity|]. cbn [JsString.upto JsString.after].
  destruct (Ascii.eqb c sep) eqn:E.
  - apply Ascii.eqb_eq in E as ->. reflexivity.
  - change (String c s = String c (JsString.upto sep s +:+
              match JsString.after sep s with Some r => String sep r | None => "" end)).
    f_equal. exact IH.
Qed.

Lemma upto_app (sep : ascii) (a r : string) :
  JsString.contains sep a = false -> JsString.upto sep (a +:+ String sep r) = a.
Proof.
  induction a as [|c a IH]; intros Ha.
  - change (JsString.upto sep (String sep r) = ""). cbn. now rewrite Ascii.eqb_refl.
  - change (JsString.upto sep (String c (a +:+ String sep r)) = String c a).
    cbn in Ha |- *. destruct (Ascii.eqb c sep); [discriminate Ha|].
    f_equal. apply IH, Ha.
Qed.

Lemma drop_app (p s : string) : JsString.drop (String.length p) (p +:+ s) = s.
Proof.
  induction p as [|c p IH]; [reflexivity|].
  change (JsString.drop (String.length p) (p +:+ s) = s). exact IH.
Qed.

Lemma third_segment_of (p id rest : string) :
  String.length p = 5 ->
  JsString.contains "/" id = false ->
  third_segment (p +:+ id) = id /\
  third_segment (p +:+ id +:+ String "/" rest) = id.
Proof.
  intros Hp Hid. unfold third_segment. rewrite <- Hp, !drop_app.
  split; [apply JsStringFacts.upto_id, Hid | apply upto_app, Hid].
Qed.

(** X6. A path under [/app/] or [/api/] is read as the prefix, then the
    application or feature id, then the rest: the id the interceptor takes
    ([path.split('/', 3)[2]]) is always defined, has no slash in it, and
    what follows it in the path is empty or starts with a slash. *)
Theorem path_segment_decomposition (p s : string) :
  p = "/app/" \/ p = "/api/" ->
  JsString.startsWith s p = true ->
  exists id rest,
    index (JsString.split s "/" 3) 2 = Some id /\
    s = p +:+ id +:+ rest /\
    JsString.contains "/" id = false /\
    (rest = "" \/ JsString.startsWith rest "/" = true).
Proof.
  intros Hp Hs.
  exists (third_segment s),
    (match JsString.after "/" (JsString.drop 5 s) with
     | Some r => String "/" r
     | None => ""
     end).
  split; [destruct Hp as [-> | ->]; [apply app_segment | apply api_segment]; exact Hs|].
  split.
  - assert (Hl : String.length p = 5) by (destruct Hp as [-> | ->]; reflexivity).
    pose proof (JsStringFacts.startsWith_app _ _ Hs) as E. rewrite Hl in E.
    rewrite E at 1. f_equal. apply upto_rest.
  - split; [apply JsStringFacts.upto_no_sep|].
    destruct (JsString.after "/" (JsString.drop 5 s)); [right; reflexivity | left; reflexivity].
Qed.

Lemma path_segment_decomposition_witness :
  exists id rest,
    index (JsString.split "/app/kibana/discover" "/" 3) 2 = Some id /\
    "/app/kibana/discover" = "/app/" +:+ id +:+ rest /\
    JsString.contains "/" id = false /\
    (rest = "" \/ JsString.startsWith rest "/" = true).
Proof.
  apply (path_segment_decomposition "/app/" "/app/kibana/discover"); [left|]; reflexivity.
Defined.

(** X7. In RBAC mode every path of an application requires the action of
    that application and nothing else: for an id without a slash, the
    request for [/app/<id>] and the request for [/app/<id>/<rest>], whatever
    the rest, make the one check for [actions.app.get(<id>)]. *)
Theorem subpaths_require_the_app_action
  W (handler : Handler W) (w : World W) (id rest : string) (s : RouteSettings) :
  fst (handler UseRbac w) = true ->
  JsString.contains "/" id = false ->
  (forall c r,
      In (CheckPrivileges c r)
         (trace (onPostAuth handler {| path := "/app/" +:+ id; route := {| settings := s |} |} w)) ->
      r = One (actions_app_get (Some id))) /\
  (forall c r,
      In (CheckPrivileges c r)
         (trace (onPostAuth handler
                   {| path := "/app/" +:+ id +:+ String "/" rest;
                      route := {| settings := s |} |} w)) ->
      r = One (actions_app_get (Some id))) /\
  count is_CheckPrivileges
    (trace (onPostAuth handler {| path := "/app/" +:+ id; route := {| settings := s |} |} w))
  = 1 /\
  count is_CheckPrivileges
    (trace (onPostAuth handler
              {| path := "/app/" +:+ id +:+ String "/" rest;
                 route := {| settings := s |} |} w))
  = 1.
Proof.
  intros Hmode Hid.
  destruct (third_segment_of "/app/" id rest eq_refl Hid) as [E1 E2].
  assert (S1 : JsString.startsWith ("/app/" +:+ id) "/app/" = true)
    by apply JsStringFacts.app_startsWith.
  assert (S2 : JsString.startsWith ("/app/" +:+ id +:+ String "/" rest) "/app/" = true)
    by apply (JsStringFacts.app_startsWith "/app/" (id +:+ String "/" rest)).
  pose proof (onPostAuth_app W handler w
                {| path := "/app/" +:+ id; route := {| settings := s |} |} Hmode S1)
    as [T1 _].
  pose proof (onPostAuth_app W handler w
                {| path := "/app/" +:+ id +:+ String "/" rest;
                   route := {| settings := s |} |} Hmode S2)
    as [T2 _].
  cbn [path] in T1, T2. rewrite E1 in T1. rewrite E2 in T2.
  rewrite T1, T2. repeat split;
    intros c r H; repeat (destruct H as [H|H]; try discriminate H); try contradiction;
    now injection H as _ <-.
Qed.

Lemma subpaths_require_the_app_action_witness :
  count is_CheckPrivileges
    (trace (onPostAuth (constant_handler true true)
              {| path := "/app/" +:+ "kibana" +:+ String "/" "discover";
                 route := {| settings := {| auth := VUndefined; tags := None |} |} |}
              (empty_world tt)))
  = 1.
Proof.
  apply (subpaths_require_the_app_action unit (constant_handler true true) (empty_world tt)
           "kibana" "discover" {| auth := VUndefined; tags := None |});
    reflexivity.
Defined.

(** X8. Of an access tag the interceptor reads only the text between the
    first and the second colon: for an operation without a colon, the tags
    [access:<operation>] and [access:<operation>:<more>] give the same
    required action, that of [<feature>/<operation>]. *)
Theorem tag_read_up_to_second_colon (p operation more : string) :
  JsString.contains ":" operation = false ->
  index (JsString.split ("access:" +:+ operation +:+ String ":" more) ":" 2) 1
    = Some operation /\
  index (JsString.split ("access:" +:+ operation) ":" 2) 1 = Some operation /\
  apiActions p ["access:" +:+ operation +:+ String ":" more]
    = apiActions p ["access:" +:+ operation] /\
  apiActions p ["access:" +:+ operation]
    = [actions_api_get (template (index (JsString.split p "/" 3) 2) +:+ "/" +:+ operation)].
Proof.
  intros Hop.
  assert (A1 : index (JsString.split ("access:" +:+ operation +:+ String ":" more) ":" 2) 1
               = Some operation).
  { rewrite access_segment
      by apply (JsStringFacts.app_startsWith "access:" (operation +:+ String ":" more)).
    unfold operation_of. rewrite (drop_app "access:"). now rewrite upto_app. }
  assert (A2 : index (JsString.split ("access:" +:+ operation) ":" 2) 1 = Some operation).
  { rewrite access_segment by apply JsStringFacts.app_startsWith.
    unfold operation_of. rewrite (drop_app "access:"). now rewrite JsStringFacts.upto_id. }
  split; [exact A1|]. split; [exact A2|].
  unfold apiActions. cbn [List.map]. rewrite A1, A2. split; reflexivity.
Qed.

Lemma tag_read_up_to_second_colon_witness :
  apiActions "/api/ml/jobs" ["access:" +:+ "ml" +:+ String ":" "canGetJobs"]
  = apiActions "/api/ml/jobs" ["access:" +:+ "ml"].
Proof.
  apply (tag_read_up_to_second_colon "/api/ml/jobs" "ml" "canGetJobs"). reflexivity.
Defined.

(** ** The two client factories, one after the other *)

(** X9. In RBAC mode the wrapper factory builds one
    [SecureSavedObjectsClientWrapper], around the client it was given and
    for the request it was given, and returns it. *)
Theorem rbac_mode_wraps_client
  W (handler : Handler W) (w : World W) (client : Client) (request : Request) :
  fst (handler UseRbac w) = true ->
  trace (scopedSavedObjectsClientWrapperFactory handler client request w) =
    [UseRbac; NewSecureSavedObjectsClientWrapper client request] /\
  result (scopedSavedObjectsClientWrapperFactory handler client request w) =
    fst (handler (NewSecureSavedObjectsClientWrapper client request)
           (snd (handler UseRbac w))) /\
  count is_NewSecureSavedObjectsClientWrapper
    (trace (scopedSavedObjectsClientWrapperFactory handler client request w)) = 1.
Proof.
  intros Hmode. run. rewrite Hmode. run. repeat split.
Qed.

Lemma rbac_mode_wraps_client_witness :
  result (scopedSavedObjectsClientWrapperFactory (constant_handler true true)
            (client_handle 0) (request "/api/saved_objects" VUndefined None)
            (empty_world tt))
  = client_handle 1.
Proof.
  apply (rbac_mode_wraps_client unit (constant_handler true true) (empty_world tt)
           (client_handle 0) (request "/api/saved_objects" VUndefined None)).
  reflexivity.
Defined.

(** The run of the client factory, by the mode it reads. *)
Lemma scopedSavedObjectsClientFactory_run
  W (handler : Handler W) (w : World W) (request : Request) :
  let adminCluster := fst (handler (GetCluster "admin") w) in
  let w1 := snd (handler (GetCluster "admin") w) in
  trace (scopedSavedObjectsClientFactory handler request w) =
    (if fst (handler UseRbac w1)
     then [GetCluster "admin"; UseRbac;
           GetSavedObjectsRepository (callWithInternalUser adminCluster);
           NewSavedObjectsClient
             (fst (handler (GetSavedObjectsRepository (callWithInternalUser adminCluster))
                     (snd (handler UseRbac w1))))]
     else [GetCluster "admin"; UseRbac;
           GetSavedObjectsRepository (callWithRequest adminCluster request);
           NewSavedObjectsClient
             (fst (handler (GetSavedObjectsRepository (callWithRequest adminCluster request))
                     (snd (handler UseRbac w1))))]).
Proof.
  cbv zeta. run.
  destruct (fst (handler UseRbac (snd (handler (GetCluster "admin") w)))); run; reflexivity.
Qed.

(** X10. The client factory and then the wrapper factory, run one after the
    other for the same request: when the two mode reads agree, the client
    is built over the internal user exactly when it is wrapped in a
    [SecureSavedObjectsClientWrapper]; a client over the request's own
    credentials is returned as it is. *)
Theorem factories_agree_under_one_mode
  W (handler : Handler W) (w : World W) (request : Request) :
  let built := scopedSavedObjectsClientFactory handler request w in
  let wrapped :=
    scopedSavedObjectsClientWrapperFactory handler (result built) request (final built) in
  fst (handler UseRbac (snd (handler (GetCluster "admin") w)))
  = fst (handler UseRbac (final built)) ->
  count is_internal_repository (trace built)
  = count is_NewSecureSavedObjectsClientWrapper (trace wrapped) /\
  (count is_internal_repository (trace built) = 0 -> result wrapped = result built).
Proof.
  cbv zeta. intros Hsame.
  rewrite (scopedSavedObjectsClientFactory_run W handler w request).
  unfold scopedSavedObjectsClientWrapperFactory.
  rewrite !trace_bind, !result_bind, !trace_call, !result_call, !final_call. cbv beta.
  rewrite <- Hsame.
  destruct (fst (handler UseRbac (snd (handler (GetCluster "admin") w)))); run; cbn.
  - split; [reflexivity | discriminate].
  - split; reflexivity.
Qed.

Lemma factories_agree_under_one_mode_witness :
  count is_internal_repository
    (trace (scopedSavedObjectsClientFactory (constant_handler true true)
              (request "/api/saved_objects" VUndefined None) (empty_world tt)))
  = count is_NewSecureSavedObjectsClientWrapper
      (trace (scopedSavedObjectsClientWrapperFactory (constant_handler true true)
                (result (scopedSavedObjectsClientFactory (constant_handler true true)
                           (request "/api/saved_objects" VUndefined None) (empty_world tt)))
                (request "/api/saved_objects" VUndefined None)
                (final (scopedSavedObjectsClientFactory (constant_handler true true)
                          (request "/api/saved_objects" VUndefined None) (empty_world tt))))).
Proof.
  apply (factories_agree_under_one_mode unit (constant_handler true true) (empty_world tt)
           (request "/api/saved_objects" VUndefined None)).
  reflexivity.
Defined.

(** X11. Each factory reads the mode for itself.  When the client factory
    reads RBAC and the wrapper factory, run after it, reads legacy, the
    client built over the internal user is returned without a wrapper. *)
Theorem mode_change_between_factories
  W (handler : Handler W) (w : World W) (request : Request) :
  let built := scopedSavedObjectsClientFactory handler request w in
  let wrapped :=
    scopedSavedObjectsClientWrapperFactory handler (result built) request (final built) in
  fst (handler UseRbac (snd (handler (GetCluster "admin") w))) = true ->
  fst (handler UseRbac (final built)) = false ->
  count is_internal_repository (trace built) = 1 /\
  count is_NewSecureSavedObjectsClientWrapper (trace wrapped) = 0 /\
  result wrapped = result built.
Proof.
  cbv zeta. intros Hfirst Hsecond.
  rewrite (scopedSavedObjectsClientFactory_run W handler w request), Hfirst.
  unfold scopedSavedObjectsClientWrapperFactory.
  rewrite !trace_bind, !result_bind, !trace_call, !result_call, !final_call. cbv beta.
  rewrite Hsecond. run. repeat split.
Qed.

Lemma mode_change_between_factories_witness :
  count is_internal_repository
    (trace (scopedSavedObjectsClientFactory toggling_handler
              (request "/api/saved_objects" VUndefined None) (empty_world true)))
  = 1.
Proof.
  apply (mode_change_between_factories bool toggling_handler (empty_world true)
           (request "/api/saved_objects" VUndefined None));
    reflexivity.
Defined.

(** ** The login state *)

(** X12. The login state always names a layout: it is ['form'] when the
    license check gives no results or results without a layout, and the
    layout of the results otherwise ([null] included); the other three
    fields are those of the results, [undefined] when there are none. *)
Theorem login_layout_defaults_to_form W (handler : Handler W) (w : World W) :
  let state := result (loginVars handler w) in
  layout state <> VUndefined /\
  (fst (handler GetLicenseCheckResults w) = None ->
   state = {| showLogin := VUndefined; loginMessage := VUndefined;
              allowLogin := VUndefined; layout := VStr "form" |}) /\
  (forall results,
      fst (handler GetLicenseCheckResults w) = Some results ->
      showLogin state = showLogin results /\
      loginMessage state = loginMessage results /\
      allowLogin state = allowLogin results /\
      (layout results = VUndefined -> layout state = VStr "form") /\
      (layout results <> VUndefined -> layout state = layout results)) /\
  trace (loginVars handler w) = [GetLicenseCheckResults].
Proof.
  cbv zeta. run. split; [|split; [|split]].
  - destruct (fst (handler GetLicenseCheckResults w)) as [r|]; cbn.
    + destruct (layout r); discriminate.
    + discriminate.
  - intros ->. reflexivity.
  - intros results ->. cbn. repeat split.
    + intros ->. reflexivity.
    + intros Hl. destruct (layout results); congruence.
  - reflexivity.
Qed.

(** ** More on the injected vars *)

(** X13. In RBAC mode the object [replaceInjectedVars] returns has the
    properties of the original plus [uiCapabilities], also when the original
    had none: the disabler is then called with [undefined], and the property
    is defined on the copy only. *)
Theorem replaced_vars_shape
  W (handler : Handler W) (w : World W) (o : loc) (obj : gmap string JsVal)
  (request : Request) :
  preserves_objects handler ->
  heap w !! o = Some obj ->
  fst (handler UseRbac w) = true ->
  let r := replaceInjectedVars handler o request w in
  (exists vars : gmap string JsVal,
      heap (final r) !! result r = Some vars /\
      dom vars = {["uiCapabilities"]} ∪ dom obj /\
      is_Some (vars !! "uiCapabilities")) /\
  (obj !! "uiCapabilities" = None ->
   (exists d, In (DisableAll d VUndefined) (trace r)
              \/ In (DisableUsingPrivileges d VUndefined) (trace r)) /\
   exists kept : gmap string JsVal,
     heap (final r) !! o = Some kept /\ kept !! "uiCapabilities" = None).
Proof.
  intros Hp Ho Hmode. cbv zeta.
  destruct (replaceInjectedVars_rbac W handler w o obj request Hp Ho Hmode)
    as (Ht & _ & Hkeep & w' & Hnew).
  split.
  - eexists. split; [exact Hnew|]. split.
    + apply dom_insert_L.
    + rewrite lookup_insert_eq. eauto.
  - intros Hnone. split.
    + rewrite Ht, Hnone. cbn [default from_option id]. eexists.
      destruct (strict_eq_false (auth (settings (route request)))); cbn; auto.
    + exists obj. split; [exact Hkeep | exact Hnone].
Qed.

Lemma replaced_vars_shape_witness :
  exists vars : gmap string JsVal,
    heap (final (replaceInjectedVars sample_handler 1%positive
                   (request "/app/kibana" VUndefined None)
                   (sample_world true [] false (<[1%positive := ∅]> ∅))))
      !! result (replaceInjectedVars sample_handler 1%positive
                   (request "/app/kibana" VUndefined None)
                   (sample_world true [] false (<[1%positive := ∅]> ∅)))
    = Some vars /\
    dom vars = {["uiCapabilities"]} ∪ dom (∅ : gmap string JsVal) /\
    is_Some (vars !! "uiCapabilities").
Proof.
  apply (replaced_vars_shape Sample sample_handler
           (sample_world true [] false (<[1%positive := ∅]> ∅)) 1%positive ∅
           (request "/app/kibana" VUndefined None) sample_preserves).
  - apply lookup_insert_eq.
  - reflexivity.
Defined.

(** X14. In RBAC mode [replaceInjectedVars] builds one disabler and makes
    one call on it: [all] exactly when the [auth] setting of the route is
    the boolean [false], and [usingPrivileges] for every other value
    ([undefined], [null], [0], [true], a strategy name). *)
Theorem anonymous_only_when_auth_is_false
  W (handler : Handler W) (w : World W) (o : loc) (obj : gmap string JsVal)
  (request : Request) :
  preserves_objects handler ->
  heap w !! o = Some obj ->
  fst (handler UseRbac w) = true ->
  let t := trace (replaceInjectedVars handler o request w) in
  count is_DisableUICapabilitesFactory t = 1 /\
  count is_DisableAll t + count is_DisableUsingPrivileges t = 1 /\
  (count is_DisableAll t = 1 <-> auth (settings (route request)) = VBool false) /\
  (count is_DisableUsingPrivileges t = 1 <-> auth (settings (route request)) <> VBool false).
Proof.
  intros Hp Ho Hmode. cbv zeta.
  destruct (replaceInjectedVars_rbac W handler w o obj request Hp Ho Hmode) as (Ht & _).
  rewrite Ht.
  destruct (strict_eq_false (auth (settings (route request)))) eqn:E; cbn;
    (split; [reflexivity | split; [reflexivity|] ]).
  - apply strict_eq_false_spec in E. split; split; auto; try discriminate.
    intros H; contradiction.
  - assert (Hne : auth (settings (route request)) <> VBool false).
    { intros H. apply strict_eq_false_spec in H. congruence. }
    split; split; auto; try discriminate. intros H; contradiction.
Qed.

Lemma anonymous_only_when_auth_is_false_witness :
  count is_DisableUsingPrivileges
    (trace (replaceInjectedVars sample_handler 1%positive
              (request "/app/kibana" (VNum 0) None)
              (sample_world true [] false sample_heap)))
  = 1.
Proof.
  apply (anonymous_only_when_auth_is_false Sample sample_handler
           (sample_world true [] false sample_heap) 1%positive sample_vars
           (request "/app/kibana" (VNum 0) None) sample_preserves).
  - apply lookup_insert_eq.
  - reflexivity.
  - discriminate.
Defined.

(** ** Across the functions of the file *)

(** X15. Every function of the file reads the mode at most once in a run,
    whatever the collaborators do; [init], [injectDefaultVars], the license
    callback and the login state never read it. *)
Theorem every_function_reads_mode_at_most_once
  W (handler : Handler W) (e : Entry) (w : World W) :
  count is_UseRbac (calls handler e w) <= 1 /\
  count is_UseRbac (calls handler run_init w) = 0 /\
  count is_UseRbac (calls handler run_injectDefaultVars w) = 0 /\
  count is_UseRbac (calls handler run_loginVars w) = 0 /\
  (forall allowRbac, count is_UseRbac (calls handler (run_onLicense allowRbac) w) = 0).
Proof.
  split.
  - destruct e; unfold calls;
      try (rewrite (init_calls W handler w); cbn; lia);
      run; branches; cbn; lia.
  - split; [unfold calls; rewrite (init_calls W handler w); reflexivity|].
    split; [reflexivity|]. split; [reflexivity|].
    intros []; reflexivity.
Qed.

(** X16. Only the interceptor checks privileges: a run of any function of
    the file that calls [checkPrivilegesDynamicallyWithRequest] or a check
    function is a run of [onPostAuth]. *)
Theorem only_the_interceptor_checks
  W (handler : Handler W) (e : Entry) (w : World W) :
  0 < count is_CheckPrivileges (calls handler e w)
      + count is_CheckPrivilegesDynamicallyWithRequest (calls handler e w) ->
  exists req, e = run_onPostAuth req.
Proof.
  destruct e; unfold calls; try (intros _; eexists; reflexivity);
    try (rewrite (init_calls W handler w); cbn; lia);
    run; branches; cbn; lia.
Qed.

Lemma only_the_interceptor_checks_witness :
  exists req, run_onPostAuth (request "/app/kibana" VUndefined None) = run_onPostAuth req.
Proof.
  apply (only_the_interceptor_checks unit (constant_handler true true)
           (run_onPostAuth (request "/app/kibana" VUndefined None)) (empty_world tt)).
  vm_compute. lia.
Defined.

(** X17. The privileges are registered with the cluster from the license
    callback only, once, and only for a license that allows RBAC: no other
    function of the file, [init] included, registers them. *)
Theorem privileges_registered_on_license_only
  W (handler : Handler W) (e : Entry) (w : World W) :
  count is_RegisterPrivilegesWithCluster (calls handler e w) =
    match e with
    | run_onLicense true => 1
    | _ => 0
    end.
Proof.
  destruct e as [| | |[]| | | |]; unfold calls;
    try (rewrite (init_calls W handler w); reflexivity);
    run; branches; reflexivity.
Qed.

(** X18. [init] creates the authorization service once, passes it to
    [deepFreeze] once and exposes what [deepFreeze] returned, once and under
    the name [authorization]; this happens after the authentication scheme
    has been made the default and before the client factories, the
    authenticator, the login state and the interceptor are registered.
    [init] itself reads no setting and no mode and checks no privilege, and
    no other function of the file creates, freezes or exposes anything. *)
Theorem init_exposes_before_registering W (handler : Handler W) (w : World W) :
  trace (init handler w) =
    (before_exposure
       ++ [CreateAuthorizationService;
           DeepFreeze (created handler w);
           Expose "authorization" (frozen handler w)]
       ++ after_exposure)%list /\
  count is_CreateAuthorizationService (trace (init handler w)) = 1 /\
  count is_DeepFreeze (trace (init handler w)) = 1 /\
  exposed (trace (init handler w)) = [("authorization", frozen handler w)] /\
  In (Glue "server.auth.default") before_exposure /\
  (forall name,
      In name ["savedObjects.setScopedSavedObjectsClientFactory";
               "savedObjects.addScopedSavedObjectsClientWrapperFactory";
               "initAuthenticator"; "server.injectUiAppVars"; "server.ext"] ->
      In (Glue name) after_exposure /\ ~ In (Glue name) before_exposure) /\
  (forall c, In c (trace (init handler w)) ->
             is_UseRbac c = false /\ is_CheckPrivileges c = false /\
             (forall key, is_ConfigGet key c = false)) /\
  (forall (e : Entry) (w' : World W),
      exposed (calls handler e w') = [] /\
      count is_CreateAuthorizationService (calls handler e w') = 0 /\
      count is_DeepFreeze (calls handler e w') = 0
      \/ e = run_init).
Proof.
  rewrite (init_calls W handler w).
  split; [reflexivity|]. split; [reflexivity|]. split; [reflexivity|].
  split; [reflexivity|]. split; [cbn; tauto|]. split; [|split].
  - intros name Hin. cbn in Hin.
    repeat (destruct Hin as [<-|Hin]; [split; [cbn; tauto|] |]); try contradiction;
      intros H; cbn in H; repeat (destruct H as [H|H]; try discriminate H); contradiction.
  - intros c Hin. unfold before_exposure, after_exposure in Hin. cbn in Hin.
    repeat (destruct Hin as [<-|Hin]; [repeat split|]); contradiction.
  - intros e w'.
    destruct e; try (right; reflexivity); left; unfold calls; run; branches;
      repeat split; reflexivity.
Qed.
